(** * CHIP-8 interpreter core ([chip8/chip8.go]): model and verification

    The Go package keeps the whole machine in one struct, [Chip8], and runs it
    with [EmulateCycle], which calls [fetch], [decode] and [execute] in turn.
    The methods mutate the struct through a pointer receiver, index fixed-size
    arrays (an index out of range is a run-time panic), call [log.Panicf] on
    opcodes they do not know and [log.Println] for the beep.  They are
    embedded here as computations in a small state / log / panic monad over a
    record that mirrors the struct. *)

From Stdlib Require Import ZArith List Bool Lia.
From stdpp Require Import base list.

Local Open Scope Z_scope.

(** ** Constants *)

Definition FONTSET_SIZE : Z := 80.
Definition TWO_BYTES_SIZE : Z := 16.
Definition MEMORY_SIZE : Z := 4096.
Definition GFX_SIZE : Z := 64 * 32.

(** ** Fixed-width arithmetic

    [byte] values are integers in [0, 256) and [uint16] values integers in
    [0, 65536); Go wraps on overflow, which is written out with [mod]. *)

Definition byte (z : Z) : Z := z mod 256.
Definition uint16 (z : Z) : Z := z mod 65536.

(** ** The machine state: [type Chip8 struct] *)

Record Chip8 : Type := mkChip8 {
  V : list Z;            (* Registers [16]byte *)
  ir : Z;                (* uint16, index register *)
  pc : Z;                (* uint16, program counter *)
  sp : Z;                (* uint16, stack pointer *)
  opcode : Z;            (* Opcode uint16 *)
  memory : list Z;       (* Memory [4096]byte *)
  gfx : list Z;          (* Gfx [64*32]byte *)
  delayedTimer : Z;      (* DelayedTimer byte *)
  soundTimer : Z;        (* SoundTimer byte *)
  stack : list Z;        (* Stack [16]byte *)
  key : list Z;          (* Key [16]byte *)
  drawFlag : bool
}.

Definition with_V (v : list Z) (c : Chip8) : Chip8 :=
  mkChip8 v (ir c) (pc c) (sp c) (opcode c) (memory c) (gfx c)
          (delayedTimer c) (soundTimer c) (stack c) (key c) (drawFlag c).
Definition with_ir (v : Z) (c : Chip8) : Chip8 :=
  mkChip8 (V c) v (pc c) (sp c) (opcode c) (memory c) (gfx c)
          (delayedTimer c) (soundTimer c) (stack c) (key c) (drawFlag c).
Definition with_pc (v : Z) (c : Chip8) : Chip8 :=
  mkChip8 (V c) (ir c) v (sp c) (opcode c) (memory c) (gfx c)
          (delayedTimer c) (soundTimer c) (stack c) (key c) (drawFlag c).
Definition with_sp (v : Z) (c : Chip8) : Chip8 :=
  mkChip8 (V c) (ir c) (pc c) v (opcode c) (memory c) (gfx c)
          (delayedTimer c) (soundTimer c) (stack c) (key c) (drawFlag c).
Definition with_opcode (v : Z) (c : Chip8) : Chip8 :=
  mkChip8 (V c) (ir c) (pc c) (sp c) v (memory c) (gfx c)
          (delayedTimer c) (soundTimer c) (stack c) (key c) (drawFlag c).
Definition with_memory (v : list Z) (c : Chip8) : Chip8 :=
  mkChip8 (V c) (ir c) (pc c) (sp c) (opcode c) v (gfx c)
          (delayedTimer c) (soundTimer c) (stack c) (key c) (drawFlag c).
Definition with_gfx (v : list Z) (c : Chip8) : Chip8 :=
  mkChip8 (V c) (ir c) (pc c) (sp c) (opcode c) (memory c) v
          (delayedTimer c) (soundTimer c) (stack c) (key c) (drawFlag c).
Definition with_delayedTimer (v : Z) (c : Chip8) : Chip8 :=
  mkChip8 (V c) (ir c) (pc c) (sp c) (opcode c) (memory c) (gfx c)
          v (soundTimer c) (stack c) (key c) (drawFlag c).
Definition with_soundTimer (v : Z) (c : Chip8) : Chip8 :=
  mkChip8 (V c) (ir c) (pc c) (sp c) (opcode c) (memory c) (gfx c)
          (delayedTimer c) v (stack c) (key c) (drawFlag c).
Definition with_stack (v : list Z) (c : Chip8) : Chip8 :=
  mkChip8 (V c) (ir c) (pc c) (sp c) (opcode c) (memory c) (gfx c)
          (delayedTimer c) (soundTimer c) v (key c) (drawFlag c).
Definition with_key (v : list Z) (c : Chip8) : Chip8 :=
  mkChip8 (V c) (ir c) (pc c) (sp c) (opcode c) (memory c) (gfx c)
          (delayedTimer c) (soundTimer c) (stack c) v (drawFlag c).
Definition with_drawFlag (v : bool) (c : Chip8) : Chip8 :=
  mkChip8 (V c) (ir c) (pc c) (sp c) (opcode c) (memory c) (gfx c)
          (delayedTimer c) (soundTimer c) (stack c) (key c) v.

(** ** How a method call ends

    The methods have no result values.  A call either returns, or it panics:
    through [log.Panicf] on an opcode the switch does not know, or through
    the run-time bounds check of an array index.  The state carried by a
    panic is the struct as the panic found it; [out] is what the call wrote
    to the log. *)

Inductive line : Type :=
| BEEP.                                   (* log.Println("BEEP!") *)

Inductive panic : Type :=
| UnknownOpcode0 (op : Z)                 (* "Unknown Opcode [0x0000]: 0x%X" *)
| UnknownCode8 (op : Z)                   (* "Unknown code [0x8000]: 0x%X" *)
| UnknownOpcode (op : Z)                  (* "Unknown Opcode: 0x%X" *)
| IndexOutOfRange (i : Z) (len : nat).    (* runtime error: index out of range *)

Inductive outcome (A : Type) : Type :=
| Returns (a : A) (c : Chip8) (out : list line)
| Panics (p : panic) (c : Chip8) (out : list line).

Arguments Returns {A} a c out.
Arguments Panics {A} p c out.

Definition M (A : Type) : Type := Chip8 -> outcome A.

Definition ret {A} (a : A) : M A := fun c => Returns a c [].

Definition bind {A B} (m : M A) (k : A -> M B) : M B := fun c =>
  match m c with
  | Returns a c1 o1 =>
      match k a c1 with
      | Returns b c2 o2 => Returns b c2 (o1 ++ o2)
      | Panics p c2 o2 => Panics p c2 (o1 ++ o2)
      end
  | Panics p c1 o1 => Panics p c1 o1
  end.

Declare Scope go_scope.
Delimit Scope go_scope with go.
Notation "x ← m ; k" := (bind m (fun x => k))
  (at level 20, m at level 100, k at level 200, only parsing) : go_scope.
Notation "m ;; k" := (bind m (fun _ => k))
  (at level 100, k at level 200, only parsing, right associativity) : go_scope.

Definition get : M Chip8 := fun c => Returns c c [].
Definition modify (f : Chip8 -> Chip8) : M unit := fun c => Returns tt (f c) [].
Definition throw {A} (p : panic) : M A := fun c => Panics p c [].
Definition println (l : line) : M unit := fun c => Returns tt c [l].
Definition when (b : bool) (m : M unit) : M unit := if b then m else ret tt.

(** [a[i]] as an expression: the bounds check, then the element. *)
Definition index (a : list Z) (i : Z) : M Z :=
  match a !! Z.to_nat i with
  | Some v => ret v
  | None => throw (IndexOutOfRange i (length a))
  end.

(** [a[i] = v] on an array field: the bounds check, then the update. *)
Definition assign (a : list Z) (i : Z) (v : Z) : M (list Z) :=
  if (Z.to_nat i <? length a)%nat then ret (<[Z.to_nat i := v]> a)
  else throw (IndexOutOfRange i (length a)).

(** [for i := from; i < from + n; i++ { body }] *)
Fixpoint for_range (n : nat) (i : Z) (body : Z -> M unit) : M unit :=
  match n with
  | O => ret tt
  | S n' => (body i ;; for_range n' (i + 1) body)%go
  end.

Definition for_upto (bound : Z) (body : Z -> M unit) : M unit :=
  for_range (Z.to_nat bound) 0 body.

(** ** The methods of [Chip8] *)

Local Open Scope go_scope.

(** [c.V[i]], [c.stack[i]], [c.memory[i]] read from the current state. *)
Definition rdV (i : Z) : M Z := c ← get; index (V c) i.
Definition rdStack (i : Z) : M Z := c ← get; index (stack c) i.
Definition rdMemory (i : Z) : M Z := c ← get; index (memory c) i.

(** [c.V[i] = v] and the like. *)
Definition stV (i v : Z) : M unit :=
  c ← get; a ← assign (V c) i v; modify (with_V a).
Definition stStack (i v : Z) : M unit :=
  c ← get; a ← assign (stack c) i v; modify (with_stack a).
Definition stMemory (i v : Z) : M unit :=
  c ← get; a ← assign (memory c) i v; modify (with_memory a).
Definition stGfx (i v : Z) : M unit :=
  c ← get; a ← assign (gfx c) i v; modify (with_gfx a).
Definition stKey (i v : Z) : M unit :=
  c ← get; a ← assign (key c) i v; modify (with_key a).

(** [func getChip8Fontset() [FONTSET_SIZE]byte] *)
Definition getChip8Fontset : list Z :=
  [ 0xF0; 0x90; 0x90; 0x90; 0xF0;   (* 0 *)
    0x20; 0x60; 0x20; 0x20; 0x70;   (* 1 *)
    0xF0; 0x10; 0xF0; 0x80; 0xF0;   (* 2 *)
    0xF0; 0x10; 0xF0; 0x10; 0xF0;   (* 3 *)
    0x90; 0x90; 0xF0; 0x10; 0x10;   (* 4 *)
    0xF0; 0x80; 0xF0; 0x10; 0xF0;   (* 5 *)
    0xF0; 0x80; 0xF0; 0x90; 0xF0;   (* 6 *)
    0xF0; 0x10; 0x20; 0x40; 0x40;   (* 7 *)
    0xF0; 0x90; 0xF0; 0x90; 0xF0;   (* 8 *)
    0xF0; 0x90; 0xF0; 0x10; 0xF0;   (* 9 *)
    0xF0; 0x90; 0xF0; 0x90; 0x90;   (* A *)
    0xE0; 0x90; 0xE0; 0x90; 0xE0;   (* B *)
    0xF0; 0x80; 0x80; 0x80; 0xF0;   (* C *)
    0xE0; 0x90; 0x90; 0x90; 0xE0;   (* D *)
    0xF0; 0x80; 0xF0; 0x80; 0xF0;   (* E *)
    0xF0; 0x80; 0xF0; 0x80; 0x80 ]. (* F *)

(** [func (c *Chip8) initialize()].  The last statement, [rand.Seed], acts
    on the random source only, which the model takes as an oracle argument
    of [decode]. *)
Definition initialize : M unit :=
  modify (with_pc 0x200) ;;
  modify (with_opcode 0) ;;
  modify (with_ir 0) ;;
  modify (with_sp 0) ;;
  for_upto GFX_SIZE (fun i => stGfx i 0) ;;
  for_upto TWO_BYTES_SIZE (fun i => stStack i 0) ;;
  for_upto TWO_BYTES_SIZE (fun i => stKey i 0 ;; stV i 0) ;;
  for_upto MEMORY_SIZE (fun i => stMemory i 0) ;;
  for_upto FONTSET_SIZE (fun i => b ← index getChip8Fontset i; stMemory i b) ;;
  modify (with_delayedTimer 0) ;;
  modify (with_soundTimer 0) ;;
  modify (with_drawFlag true).

(** [func (c *Chip8) fetch()].  Both operands of [|] are of type [byte], so
    the shift is a [byte] shift; [c.pc+1] is a [uint16] sum. *)
Definition fetch : M unit :=
  c ← get;
  hi ← rdMemory (pc c);
  lo ← rdMemory (uint16 (pc c + 1));
  let opcode := Z.lor (byte (Z.shiftl hi 8)) lo in
  modify (with_opcode opcode).

(** [func (c *Chip8) incrementProgramCounter()] *)
Definition incrementProgramCounter : M unit :=
  c ← get; modify (with_pc (uint16 (pc c + 2))).

(** [func (c *Chip8) execute()] *)
Definition execute : M unit :=
  c ← get; modify (with_pc (uint16 (pc c + 2))).

(** [func (c *Chip8) decode()], lines 100-256: the operand fields and the
    switch on the opcode.  [rnd] is the value [rand.Intn(255)] returns if
    this call asks for one, a number in [0, 255).  In Go [&] and [>>] have
    the same precedence and associate to the left, so [c.opcode&0xF00>>8] is
    [(c.opcode&0xF00)>>8]. *)
Definition decode_switch (rnd : Z) : M unit :=
  c ← get;
  let op := opcode c in
  let vXPos := Z.shiftr (Z.land op 0xF00) 8 in
  let vYPos := Z.shiftr (Z.land op 0x0F0) 4 in
  match Z.land op 0xF000 with
  | 0x0000 =>
      match Z.land op 0x000F with
      | 0x0000 => (* 0x00E0: Clears the screen *)
          for_upto GFX_SIZE (fun i => stGfx i 0x0) ;;
          incrementProgramCounter
      | 0x000E => (* 0x00EE: Returns from subroutine *)
          (c ← get; modify (with_sp (uint16 (sp c - 1)))) ;;
          (c ← get; s ← rdStack (sp c); modify (with_pc (uint16 s))) ;;
          incrementProgramCounter
      | _ => throw (UnknownOpcode0 op)
      end
  | 0x1000 => (* JP addr *)
      modify (with_pc (uint16 (Z.land op 0x0FFF)))
  | 0x2000 => (* CALL addr *)
      (c ← get; stStack (sp c) (byte (pc c))) ;;
      (c ← get; modify (with_sp (uint16 (sp c + 1)))) ;;
      modify (with_pc (uint16 (Z.land op 0x0FFF)))
  | 0x3000 => (* SE Vx, byte *)
      Vx ← rdV vXPos;
      let kk := byte (Z.land op 0x00FF) in
      when (Vx =? kk) incrementProgramCounter ;;
      incrementProgramCounter
  | 0x4000 => (* SNE Vx, byte *)
      Vx ← rdV vXPos;
      let kk := byte (Z.land op 0x00FF) in
      when (negb (Vx =? kk)) incrementProgramCounter ;;
      incrementProgramCounter
  | 0x5000 => (* SE Vx, Vy *)
      Vx ← rdV vXPos;
      Vy ← rdV vYPos;
      when (Vx =? Vy) incrementProgramCounter ;;
      incrementProgramCounter
  | 0x6000 => (* LD Vx, byte *)
      stV vXPos (byte (Z.land op 0x00FF)) ;;
      incrementProgramCounter
  | 0x7000 => (* ADD Vx, byte *)
      (a ← rdV vXPos; stV vXPos (byte (a + byte (Z.land op 0x00FF)))) ;;
      incrementProgramCounter
  | 0x8000 =>
      match Z.land op 0x000F with
      | 0x0000 => (* LD Vx, Vy *)
          (b ← rdV vYPos; stV vXPos b) ;;
          incrementProgramCounter
      | 0x0001 => (* OR Vx, Vy *)
          (a ← rdV vXPos; b ← rdV vYPos; stV vXPos (Z.lor a b)) ;;
          incrementProgramCounter
      | 0x0002 => (* AND Vx, Vy *)
          (a ← rdV vXPos; b ← rdV vYPos; stV vXPos (Z.land a b)) ;;
          incrementProgramCounter
      | 0x0003 => (* XOR Vx, Vy *)
          (a ← rdV vXPos; b ← rdV vYPos; stV vXPos (Z.lxor a b)) ;;
          incrementProgramCounter
      | 0x0004 => (* ADD Vx, Vy *)
          stV 0xF 0 ;;
          (a ← rdV vXPos; b ← rdV vYPos;
           when (a >? byte (0xFF - b)) (stV 0xF 1)) ;;
          (a ← rdV vXPos; b ← rdV (Z.shiftr vYPos 4);
           stV vXPos (byte (a + b))) ;;
          incrementProgramCounter
      | 0x0005 => (* SUB Vx, Vy *)
          stV 0xF 0 ;;
          (a ← rdV vXPos; b ← rdV vYPos;
           when (a >? byte (0xFF - b)) (stV 0xF 1)) ;;
          (a ← rdV vXPos; b ← rdV vYPos; stV vXPos (byte (a - b))) ;;
          incrementProgramCounter
      | 0x0006 => (* SHR Vx {, Vy} *)
          stV 0xF 0 ;;
          (a ← rdV vXPos; when (Z.land a 0x1 =? 1) (stV 0xF 1)) ;;
          (a ← rdV vXPos; stV vXPos (Z.shiftr a 1)) ;;
          incrementProgramCounter
      | 0x0007 => (* SUBN Vx, Vy *)
          stV 0xF 0 ;;
          (b ← rdV vYPos; a ← rdV vXPos; when (b >? a) (stV 0xF 1)) ;;
          (b ← rdV vYPos; a ← rdV vXPos; stV vXPos (byte (b - a))) ;;
          incrementProgramCounter
      | 0x000E => (* SHL Vx {, Vy} *)
          stV 0xF 0 ;;
          (b ← rdV vYPos; when (Z.shiftr b 7 =? 1) (stV 0xF 1)) ;;
          (a ← rdV vXPos; stV vXPos (byte (Z.shiftl a 1))) ;;
          incrementProgramCounter
      | _ => throw (UnknownCode8 op)
      end
  | 0x9000 => (* SNE Vx, Vy *)
      (a ← rdV vXPos; b ← rdV vYPos;
       when (negb (a =? b)) incrementProgramCounter) ;;
      incrementProgramCounter
  | 0xA000 => (* LD I, addr *)
      modify (with_ir (uint16 (Z.land op 0x0FFF))) ;;
      incrementProgramCounter
  | 0xB000 => (* JP V0, addr *)
      v0 ← rdV 0;
      modify (with_pc (uint16 (uint16 (Z.land op 0x0FFF) + uint16 v0)))
  | 0xC000 => (* RND Vx, byte *)
      stV vXPos (byte (Z.land (Z.rem rnd 0xFF) (Z.land op 0x00FF))) ;;
      incrementProgramCounter
  | 0xD000 => (* TODO: Implement *)
      ret tt
  | 0xE000 => (* TODO: Implement *)
      match Z.land op 0x00FF with
      | 0x09E => ret tt
      | 0x0A1 => ret tt
      | _ => ret tt
      end
  | 0xF000 => (* TODO: Implement *)
      match Z.land op 0x00FF with
      | 0x007 | 0x00A | 0x018 | 0x01E | 0x029 | 0x033 | 0x055 | 0x065 => ret tt
      | _ => ret tt
      end
  | _ => throw (UnknownOpcode op)
  end.

(** [decode], lines 258-267: the timers. *)
Definition decode_timers : M unit :=
  (c ← get;
   when (delayedTimer c >? 0)
     (modify (with_delayedTimer (byte (delayedTimer c - 1))))) ;;
  (c ← get;
   when (soundTimer c >? 0)
     (when (soundTimer c =? 1)
        (println BEEP ;;
         modify (with_soundTimer (byte (soundTimer c - 1)))))).

Definition decode (rnd : Z) : M unit :=
  decode_switch rnd ;; decode_timers.

(** [func (c *Chip8) EmulateCycle()] *)
Definition EmulateCycle (rnd : Z) : M unit :=
  fetch ;; decode rnd ;; execute.

(** ** States of the right shape

    What Go's types guarantee of a [Chip8] value: the array lengths and the
    ranges of the integer fields. *)

Definition is_byte (z : Z) : bool := (0 <=? z) && (z <? 256).
Definition is_uint16 (z : Z) : bool := (0 <=? z) && (z <? 65536).
Definition is_array (n : Z) (a : list Z) : bool :=
  (Z.of_nat (length a) =? n) && forallb is_byte a.

Definition wfb (c : Chip8) : bool :=
  is_array TWO_BYTES_SIZE (V c) && is_uint16 (ir c) && is_uint16 (pc c) &&
  is_uint16 (sp c) && is_uint16 (opcode c) && is_array MEMORY_SIZE (memory c) &&
  is_array GFX_SIZE (gfx c) && is_byte (delayedTimer c) &&
  is_byte (soundTimer c) && is_array TWO_BYTES_SIZE (stack c) &&
  is_array TWO_BYTES_SIZE (key c).

Definition wf (c : Chip8) : Prop := wfb c = true.

(** The zero value of the struct, [Chip8{}]. *)
Definition zero_value : Chip8 :=
  mkChip8 (replicate 16 0) 0 0 0 0 (replicate 4096 0) (replicate 2048 0)
          0 0 (replicate 16 0) (replicate 16 0) false.

(** The state a call leaves behind when it returns. *)
Definition state_of {A} (o : outcome A) (dflt : Chip8) : Chip8 :=
  match o with
  | Returns _ c _ => c
  | Panics _ _ _ => dflt
  end.

Definition initial : Chip8 :=
  Eval vm_compute in state_of (initialize zero_value) zero_value.

(** Running a straight-line program whose instruction words are handed to
    the decoder one after the other: each word is put in [c.opcode], where
    [fetch] leaves the word it read, and the rest of the cycle runs. *)
Definition exec_op (rnd : Z) (op : Z) : M unit :=
  modify (with_opcode op) ;; decode rnd ;; execute.

Fixpoint exec_ops (rnd : Z) (ops : list Z) : M unit :=
  match ops with
  | [] => ret tt
  | op :: rest => exec_op rnd op ;; exec_ops rnd rest
  end.

(** [n] calls of [decode] in a row on the same instruction word. *)
Fixpoint decode_times (rnd : Z) (n : nat) : M unit :=
  match n with
  | O => ret tt
  | S n' => decode rnd ;; decode_times rnd n'
  end.

(** ** Vocabulary of the statements *)

(** Prefixing what an earlier statement logged to an outcome. *)
Definition prepend {A} (o1 : list line) (r : outcome A) : outcome A :=
  match r with
  | Returns a c o2 => Returns a c (o1 ++ o2)
  | Panics p c o2 => Panics p c (o1 ++ o2)
  end.

(** The register indices an instruction word names: [vXPos] and [vYPos] of
    [decode], as list positions. *)
Definition xreg (op : Z) : nat := Z.to_nat (Z.shiftr (Z.land op 0xF00) 8).
Definition yreg (op : Z) : nat := Z.to_nat (Z.shiftr (Z.land op 0x0F0) 4).

(** What [decode_timers] leaves behind, as a function of the state. *)
Definition timers_after (c : Chip8) : Chip8 :=
  let c1 := if delayedTimer c >? 0
            then with_delayedTimer (byte (delayedTimer c - 1)) c else c in
  if (soundTimer c >? 0) && (soundTimer c =? 1)
  then with_soundTimer (byte (soundTimer c - 1)) c1 else c1.

Definition beeps (c : Chip8) : list line :=
  if (soundTimer c >? 0) && (soundTimer c =? 1) then [BEEP] else [].

(** Instruction words by family. *)
Definition is_call (op : Z) : Prop := Z.land op 0xF000 = 0x2000.

Definition is_ret (op : Z) : Prop :=
  Z.land op 0xF000 = 0x0000 /\ Z.land op 0x000F = 0x000E.

(** The words on which the switch calls [log.Panicf]: family 0 with a low
    nibble other than 0 and E, family 8 with a low nibble other than 0..7
    and E.  (Every family has a case, so the outer default is dead.) *)
Definition unknown_to_switch (op : Z) : Prop :=
  (Z.land op 0xF000 = 0x0000 /\
   Z.land op 0x000F <> 0x0 /\ Z.land op 0x000F <> 0xE) \/
  (Z.land op 0xF000 = 0x8000 /\
   7 < Z.land op 0x000F /\ Z.land op 0x000F <> 0xE).

(** The instruction words of claim C10: families 3, 4, 5, 6, 7 and 9, and
    family 8 with one of the sub-opcodes the switch defines. *)
Definition register_only (op : Z) : Prop :=
  In (Z.land op 0xF000) [0x3000; 0x4000; 0x5000; 0x6000; 0x7000; 0x9000] \/
  (Z.land op 0xF000 = 0x8000 /\
   In (Z.land op 0x000F) [0x0; 0x1; 0x2; 0x3; 0x4; 0x5; 0x6; 0x7; 0xE]).

(** [frame c c'] says that [c'] differs from [c] in the V registers, the
    program counter and the two timers at most; [keeps m] that [m] returns
    from every state with sixteen V registers and changes no more than that. *)

Definition Vlen (c : Chip8) : Prop := length (V c) = 16%nat.

Record frame (c c' : Chip8) : Prop := mkFrame {
  frame_Vlen : length (V c') = length (V c);
  frame_ir : ir c' = ir c;
  frame_sp : sp c' = sp c;
  frame_opcode : opcode c' = opcode c;
  frame_memory : memory c' = memory c;
  frame_gfx : gfx c' = gfx c;
  frame_stack : stack c' = stack c;
  frame_key : key c' = key c;
  frame_drawFlag : drawFlag c' = drawFlag c
}.

Definition keeps_at {A} (c : Chip8) (m : M A) : Prop :=
  Vlen c -> exists a c' o, m c = Returns a c' o /\ frame c c'.

Definition keeps {A} (m : M A) : Prop := forall c, keeps_at c m.

(** The state of the right shape, field by field. *)
Record shaped (c : Chip8) : Prop := mkShaped {
  shaped_V : is_array 16 (V c) = true;
  shaped_ir : is_uint16 (ir c) = true;
  shaped_pc : is_uint16 (pc c) = true;
  shaped_sp : is_uint16 (sp c) = true;
  shaped_opcode : is_uint16 (opcode c) = true;
  shaped_memory : is_array 4096 (memory c) = true;
  shaped_gfx : is_array 2048 (gfx c) = true;
  shaped_delayedTimer : is_byte (delayedTimer c) = true;
  shaped_soundTimer : is_byte (soundTimer c) = true;
  shaped_stack : is_array 16 (stack c) = true;
  shaped_key : is_array 16 (key c) = true
}.

(** [stays m Q]: run from a state of the right shape, [m] ends in a state of
    the right shape, whether it returns or panics, and what it returns
    satisfies [Q]. *)
Definition stays {A} (m : M A) (Q : A -> Prop) : Prop :=
  forall c, shaped c ->
    match m c with
    | Returns a c' _ => shaped c' /\ Q a
    | Panics _ c' _ => shaped c'
    end.

Definition any {A} : A -> Prop := fun _ => True.

(** [silent m]: [m] leaves the two timers alone and logs nothing, whether
    it returns or panics. *)
Definition same_timers (c c' : Chip8) : Prop :=
  delayedTimer c' = delayedTimer c /\ soundTimer c' = soundTimer c.

Definition silent {A} (m : M A) : Prop :=
  forall c,
    match m c with
    | Returns _ c' out => same_timers c c' /\ out = []
    | Panics _ c' out => same_timers c c' /\ out = []
    end.

(** ** Vocabulary of the further properties *)

(** The machine as [initialize] leaves it. *)
Definition reset_state : Chip8 :=
  mkChip8 (replicate 16 0) 0 0x200 0 0
          (getChip8Fontset ++ replicate 4016 0) (replicate 2048 0)
          0 0 (replicate 16 0) (replicate 16 0) true.

(** Register [i], the constant and the address of an instruction word. *)
Definition reg (c : Chip8) (i : nat) : Z := default 0 (V c !! i).
Definition kk (op : Z) : Z := Z.land op 0x00FF.
Definition nnn (op : Z) : Z := Z.land op 0x0FFF.

(** The states on which [decode] does not panic (X7). *)
Definition decodable (c : Chip8) : Prop :=
  ~ unknown_to_switch (opcode c) /\
  (is_call (opcode c) -> sp c < 16) /\
  (is_ret (opcode c) -> 1 <= sp c <= 16).

(** The byte [fetch] delivers as the instruction word. *)
Definition fetched (c : Chip8) : Z :=
  default 0 (memory c !! Z.to_nat (pc c + 1)).

(** The initialized machine with an instruction word in [c.opcode]. *)
Definition latched (op : Z) : Chip8 := with_opcode op initial.

(** The same with V0 and V1 set. *)
Definition latched_with (v0 v1 op : Z) : Chip8 :=
  with_opcode op
    (with_V (<[1%nat := v1]> (<[0%nat := v0]> (V initial))) initial).

(** The result of [8xy0] .. [8xy3] by sub-opcode. *)
Definition bitwise (n a b : Z) : Z :=
  if n =? 0 then b
  else if n =? 1 then Z.lor a b
  else if n =? 2 then Z.land a b
  else Z.lxor a b.

(** A machine with every pixel lit whose next word is 0x00E0. *)
Definition lit_screen : Chip8 :=
  with_gfx (replicate 2048 1)
    (with_memory (<[513%nat := 0xE0]> (memory initial)) initial).


(** A machine about to return from a subroutine called from 0x2A: stack
    pointer 1, the slot holding 0x2A, and the byte 0xEE behind the program
    counter. *)
Definition returning : Chip8 :=
  with_sp 1
    (with_stack (<[0%nat := 0x2A]> (stack initial))
       (with_memory (<[513%nat := 0xEE]> (memory initial)) initial)).

(** ** Example states *)

(** A freshly initialized machine with the program [60 12 70 01] at 0x200:
    [LD V0, 0x12] followed by [ADD V0, 0x01]. *)
Definition loaded : Chip8 :=
  with_memory
    (<[515%nat := 0x01]> (<[514%nat := 0x70]>
       (<[513%nat := 0x12]> (<[512%nat := 0x60]> (memory initial)))))
    initial.

(** V0 = 0xFF, V1 = 0x01 and the word 0x8014 ([ADD V0, V1]) latched. *)
Definition carry_state : Chip8 :=
  with_opcode 0x8014
    (with_V (<[1%nat := 0x01]> (<[0%nat := 0xFF]> (V initial))) initial).

(** V0 = 0x05, V1 = 0x03 and the word 0x8015 ([SUB V0, V1]) latched. *)
Definition borrow_state : Chip8 :=
  with_opcode 0x8015
    (with_V (<[1%nat := 0x03]> (<[0%nat := 0x05]> (V initial))) initial).

(** Sound timer 2 and the word 0x1200 ([JP 0x200]) latched at pc = 0x200. *)
Definition humming : Chip8 :=
  with_opcode 0x1200 (with_soundTimer 2 initial).

(** A one-row sprite 0xFF at 0x300, I = 0x300, V0 = V1 = 0, a clear display
    whose redraw flag the host has consumed, and the word 0xD011
    ([DRW V0, V1, 1]) latched. *)
Definition sprite_state : Chip8 :=
  with_opcode 0xD011
    (with_drawFlag false
       (with_ir 0x300
          (with_memory (<[768%nat := 0xFF]> (memory initial)) initial))).

(** * Properties of the model *)

(** ** Evaluating computations *)

Lemma prepend_nil {A} (r : outcome A) : prepend [] r = r.
Proof. destruct r; reflexivity. Qed.

Lemma bind_Returns {A B} (m : M A) (k : A -> M B) c a c1 o1 :
  m c = Returns a c1 o1 -> bind m k c = prepend o1 (k a c1).
Proof. intros H. unfold bind. rewrite H. reflexivity. Qed.

Lemma bind_Returns_nil {A B} (m : M A) (k : A -> M B) c a c1 :
  m c = Returns a c1 [] -> bind m k c = k a c1.
Proof. intros H. rewrite (bind_Returns _ _ _ _ _ _ H). apply prepend_nil. Qed.

Lemma bind_Panics {A B} (m : M A) (k : A -> M B) c p c1 o1 :
  m c = Panics p c1 o1 -> bind m k c = Panics p c1 o1.
Proof. intros H. unfold bind. rewrite H. reflexivity. Qed.

Lemma bind_get {A} (k : Chip8 -> M A) c : bind get k c = k c c.
Proof. apply bind_Returns_nil. reflexivity. Qed.

Lemma bind_modify {A} f (k : unit -> M A) c : bind (modify f) k c = k tt (f c).
Proof. apply bind_Returns_nil. reflexivity. Qed.

Lemma bind_ret {A B} (a : A) (k : A -> M B) c : bind (ret a) k c = k a c.
Proof. apply bind_Returns_nil. reflexivity. Qed.

Lemma bind_assoc {A B C} (m : M A) (k : A -> M B) (h : B -> M C) c :
  bind (bind m k) h c = bind m (fun a => bind (k a) h) c.
Proof.
  unfold bind. destruct (m c) as [a c1 o1 | p c1 o1]; [ | reflexivity ].
  destruct (k a c1) as [b c2 o2 | p c2 o2]; [ | reflexivity ].
  destruct (h b c2) as [d c3 o3 | p c3 o3]; rewrite app_assoc; reflexivity.
Qed.

Lemma eta_Chip8 c :
  mkChip8 (V c) (ir c) (pc c) (sp c) (opcode c) (memory c) (gfx c)
          (delayedTimer c) (soundTimer c) (stack c) (key c) (drawFlag c) = c.
Proof. destruct c; reflexivity. Qed.

Lemma uint16_add_l a b : uint16 (uint16 a + b) = uint16 (a + b).
Proof. unfold uint16. apply Zplus_mod_idemp_l. Qed.

(** ** Operand fields *)

Lemma nibble_bounds (a k : Z) :
  0 <= k -> 0 <= Z.shiftr (Z.land a (Z.shiftl 0xF k)) k < 16.
Proof.
  intros Hk. rewrite Z.shiftr_land, Z.shiftr_shiftl_l, Z.sub_diag by lia.
  change (Z.shiftl 0xF 0) with (Z.ones 4). rewrite Z.land_ones by lia.
  apply Z.mod_pos_bound. lia.
Qed.

Lemma vXPos_bounds op : 0 <= Z.shiftr (Z.land op 0xF00) 8 < 16.
Proof. apply (nibble_bounds op 8). lia. Qed.

Lemma vYPos_bounds op : 0 <= Z.shiftr (Z.land op 0x0F0) 4 < 16.
Proof. apply (nibble_bounds op 4). lia. Qed.

Lemma low_nibble_bounds op : 0 <= Z.land op 0x000F < 16.
Proof.
  change 0x000F with (Z.ones 4). rewrite Z.land_ones by lia.
  apply Z.mod_pos_bound. lia.
Qed.

(** The index of line 182, [(vYPos) >> 4], is register 0 whatever [y] is. *)
Lemma vYPos_shifted op : Z.shiftr (Z.shiftr (Z.land op 0x0F0) 4) 4 = 0.
Proof.
  pose proof (vYPos_bounds op) as H.
  rewrite (Z.shiftr_div_pow2 _ 4) by lia. apply Z.div_small.
  change (2 ^ 4) with 16. exact H.
Qed.

Lemma register_zero_bounds op :
  0 <= Z.shiftr (Z.shiftr (Z.land op 0x0F0) 4) 4 < 16.
Proof. rewrite vYPos_shifted. lia. Qed.

(** ** Array accesses *)

Lemma index_ok (a : list Z) (i : Z) :
  (Z.to_nat i < length a)%nat ->
  exists v, a !! Z.to_nat i = Some v /\ forall c, index a i c = Returns v c [].
Proof.
  intros H. destruct (lookup_lt_is_Some_2 a (Z.to_nat i) H) as [v Hv].
  exists v. split; [ exact Hv | ]. intros c. unfold index. rewrite Hv. reflexivity.
Qed.

Lemma index_out (a : list Z) (i : Z) c :
  (length a <= Z.to_nat i)%nat ->
  index a i c = Panics (IndexOutOfRange i (length a)) c [].
Proof.
  intros H. unfold index. rewrite (lookup_ge_None_2 a (Z.to_nat i) H). reflexivity.
Qed.

Lemma assign_ok (a : list Z) (i v : Z) c :
  (Z.to_nat i < length a)%nat ->
  assign a i v c = Returns (<[Z.to_nat i := v]> a) c [].
Proof.
  intros H. unfold assign.
  destruct (Nat.ltb_spec (Z.to_nat i) (length a)); [ reflexivity | lia ].
Qed.

Lemma assign_out (a : list Z) (i v : Z) c :
  (length a <= Z.to_nat i)%nat ->
  assign a i v c = Panics (IndexOutOfRange i (length a)) c [].
Proof.
  intros H. unfold assign.
  destruct (Nat.ltb_spec (Z.to_nat i) (length a)); [ lia | reflexivity ].
Qed.

Lemma bind_rdV {A} c i v (k : Z -> M A) :
  V c !! Z.to_nat i = Some v -> bind (rdV i) k c = k v c.
Proof.
  intros H. apply bind_Returns_nil. unfold rdV. rewrite bind_get.
  unfold index. rewrite H. reflexivity.
Qed.

Lemma bind_stV {A} c i v (k : unit -> M A) :
  (Z.to_nat i < length (V c))%nat ->
  bind (stV i v) k c = k tt (with_V (<[Z.to_nat i := v]> (V c)) c).
Proof.
  intros H. apply bind_Returns_nil. unfold stV. rewrite bind_get.
  rewrite (bind_Returns_nil _ _ _ _ _ (assign_ok (V c) i v c H)). reflexivity.
Qed.

Lemma rdMemory_Some c i v :
  memory c !! Z.to_nat i = Some v -> rdMemory i c = Returns v c [].
Proof.
  intros H. unfold rdMemory. rewrite bind_get. unfold index. rewrite H.
  reflexivity.
Qed.

Lemma stStack_ok c i v :
  (Z.to_nat i < length (stack c))%nat ->
  stStack i v c = Returns tt (with_stack (<[Z.to_nat i := v]> (stack c)) c) [].
Proof.
  intros H. unfold stStack. rewrite bind_get.
  rewrite (bind_Returns_nil _ _ _ _ _ (assign_ok (stack c) i v c H)).
  reflexivity.
Qed.

Lemma stStack_out c i v :
  (length (stack c) <= Z.to_nat i)%nat ->
  stStack i v c = Panics (IndexOutOfRange i (length (stack c))) c [].
Proof.
  intros H. unfold stStack. rewrite bind_get.
  apply bind_Panics, assign_out, H.
Qed.

(** ** The program counter and the timers *)

Lemma incrementProgramCounter_eq c :
  incrementProgramCounter c = Returns tt (with_pc (uint16 (pc c + 2)) c) [].
Proof. unfold incrementProgramCounter. rewrite bind_get. reflexivity. Qed.

Lemma execute_eq c : execute c = Returns tt (with_pc (uint16 (pc c + 2)) c) [].
Proof. unfold execute. rewrite bind_get. reflexivity. Qed.

Lemma decode_timers_eq c :
  decode_timers c = Returns tt (timers_after c) (beeps c).
Proof.
  unfold decode_timers, timers_after, beeps, bind, get, when.
  destruct (delayedTimer c >? 0); simpl;
    destruct (soundTimer c >? 0); simpl; try reflexivity;
    destruct (soundTimer c =? 1); reflexivity.
Qed.

Lemma timers_after_fields c :
  V (timers_after c) = V c /\ ir (timers_after c) = ir c /\
  pc (timers_after c) = pc c /\ sp (timers_after c) = sp c /\
  opcode (timers_after c) = opcode c /\ memory (timers_after c) = memory c /\
  gfx (timers_after c) = gfx c /\ stack (timers_after c) = stack c /\
  key (timers_after c) = key c /\ drawFlag (timers_after c) = drawFlag c.
Proof.
  unfold timers_after.
  destruct (delayedTimer c >? 0);
    destruct ((soundTimer c >? 0) && (soundTimer c =? 1));
    repeat split; reflexivity.
Qed.

(** The sound timer moves only from 1 to 0: every other value stays. *)
Lemma soundTimer_after c :
  soundTimer (timers_after c) = if soundTimer c =? 1 then 0 else soundTimer c.
Proof.
  unfold timers_after.
  destruct (Z.eqb_spec (soundTimer c) 1) as [E | E].
  - rewrite E. destruct (delayedTimer c >? 0); reflexivity.
  - rewrite andb_false_r. destruct (delayedTimer c >? 0); reflexivity.
Qed.

Lemma decode_eq rnd c c1 :
  decode_switch rnd c = Returns tt c1 [] ->
  decode rnd c = Returns tt (timers_after c1) (beeps c1).
Proof.
  intros E. unfold decode. rewrite (bind_Returns_nil _ _ _ _ _ E).
  apply decode_timers_eq.
Qed.

Lemma exec_op_eq rnd op c c1 :
  decode_switch rnd (with_opcode op c) = Returns tt c1 [] ->
  exec_op rnd op c =
  Returns tt (with_pc (uint16 (pc c1 + 2)) (timers_after c1)) (beeps c1).
Proof.
  intros E. unfold exec_op. rewrite bind_modify. unfold decode.
  rewrite bind_assoc. rewrite (bind_Returns_nil _ _ _ _ _ E).
  rewrite (bind_Returns _ _ _ _ _ _ (decode_timers_eq c1)).
  rewrite execute_eq. simpl.
  destruct (timers_after_fields c1) as (_ & _ & Hpc & _). rewrite Hpc.
  rewrite app_nil_r. reflexivity.
Qed.

(** ** States of the right shape *)

Lemma is_array_length n a : is_array n a = true -> Z.of_nat (length a) = n.
Proof.
  unfold is_array. intros H. apply andb_prop in H. destruct H as [H _].
  apply Z.eqb_eq, H.
Qed.

Lemma wf_lengths c :
  wf c ->
  length (V c) = 16%nat /\ length (memory c) = 4096%nat /\
  length (gfx c) = 2048%nat /\ length (stack c) = 16%nat /\
  length (key c) = 16%nat.
Proof.
  unfold wf, wfb. intros H.
  repeat (apply andb_prop in H; destruct H as [H ?]).
  repeat match goal with
         | H : is_array _ _ = true |- _ => apply is_array_length in H
         end.
  unfold TWO_BYTES_SIZE, MEMORY_SIZE, GFX_SIZE in *.
  repeat split; lia.
Qed.

Lemma wf_Vlen c : wf c -> Vlen c.
Proof. intros H. apply (wf_lengths c H). Qed.

Lemma initialize_zero_value : initialize zero_value = Returns tt initial [].
Proof. vm_compute. reflexivity. Qed.

Lemma initial_wf : wf initial.
Proof. vm_compute. reflexivity. Qed.

(** ** [fetch] *)

Lemma byte_shiftl_8 hi : byte (Z.shiftl hi 8) = 0.
Proof.
  unfold byte. rewrite Z.shiftl_mul_pow2 by lia.
  change (2 ^ 8) with 256. apply Z.mod_mul. lia.
Qed.

(** The word [fetch] leaves in [c.opcode] is the byte at [pc+1] alone: the
    shift of the byte at [pc] is a [byte] shift and yields 0. *)
Lemma fetch_low_byte c hi lo :
  0 <= pc c -> pc c + 1 < 65536 ->
  memory c !! Z.to_nat (pc c) = Some hi ->
  memory c !! Z.to_nat (pc c + 1) = Some lo ->
  fetch c = Returns tt (with_opcode lo c) [].
Proof.
  intros H0 H1 Hhi Hlo. unfold fetch. rewrite bind_get.
  rewrite (bind_Returns_nil _ _ _ _ _ (rdMemory_Some c _ _ Hhi)).
  assert (E : uint16 (pc c + 1) = pc c + 1) by (apply Z.mod_small; lia).
  rewrite E.
  rewrite (bind_Returns_nil _ _ _ _ _ (rdMemory_Some c _ _ Hlo)).
  rewrite byte_shiftl_8, Z.lor_0_l. reflexivity.
Qed.

(** A fetched word is below 256, so its family is 0. *)
Lemma family_of_byte lo : 0 <= lo < 256 -> Z.land lo 0xF000 = 0x0000.
Proof.
  intros H. rewrite <- (Z.mod_small lo (2 ^ 12)) by lia.
  rewrite <- Z.land_ones by lia. rewrite <- Z.land_assoc. apply Z.land_0_r.
Qed.

(** A cycle is the rest of the cycle run on the low byte of the word at pc. *)
Lemma EmulateCycle_low_byte rnd c hi lo :
  0 <= pc c -> pc c + 1 < 65536 ->
  memory c !! Z.to_nat (pc c) = Some hi ->
  memory c !! Z.to_nat (pc c + 1) = Some lo ->
  EmulateCycle rnd c = (decode rnd ;; execute) (with_opcode lo c).
Proof.
  intros H0 H1 Hhi Hlo. unfold EmulateCycle.
  rewrite (bind_Returns_nil _ _ _ _ _ (fetch_low_byte c hi lo H0 H1 Hhi Hlo)).
  reflexivity.
Qed.

(** When [fetch] returns it has written [c.opcode] and nothing else. *)
Lemma fetch_frame c c' out :
  fetch c = Returns tt c' out -> c' = with_opcode (opcode c') c.
Proof.
  unfold fetch. rewrite bind_get. unfold rdMemory. rewrite !bind_assoc, bind_get.
  unfold index.
  destruct (memory c !! Z.to_nat (pc c)) as [hi | ];
    [ | unfold bind, throw; discriminate ].
  rewrite bind_ret, bind_assoc, bind_get.
  destruct (memory c !! Z.to_nat (uint16 (pc c + 1))) as [lo | ];
    [ | unfold bind, throw; discriminate ].
  rewrite bind_ret. unfold modify. intros E. inversion E. reflexivity.
Qed.

(** On the loaded program the first cycle decodes 0x0012, not 0x6012, and
    the switch rejects it. *)
Lemma cycle_on_loaded_program :
  EmulateCycle 0 loaded =
    Panics (UnknownOpcode0 0x0012) (with_opcode 0x0012 loaded) [].
Proof. vm_compute. reflexivity. Qed.

(** ** The instructions

    [rnd] is the number the random source hands to this call of [decode]. *)

Section Instructions.

Variable rnd : Z.

(** *** Register instructions *)

Lemma decode_switch_ld c :
  Z.land (opcode c) 0xF000 = 0x6000 -> length (V c) = 16%nat ->
  decode_switch rnd c =
  Returns tt
    (with_pc (uint16 (pc c + 2))
       (with_V (<[xreg (opcode c) := byte (Z.land (opcode c) 0x00FF)]> (V c)) c))
    [].
Proof.
  intros Hf Hlen.
  unfold decode_switch. rewrite bind_get. cbv zeta. rewrite Hf. cbv iota.
  rewrite bind_stV by (pose proof (vXPos_bounds (opcode c)); lia).
  rewrite incrementProgramCounter_eq. reflexivity.
Qed.

Lemma decode_switch_add_byte c a :
  Z.land (opcode c) 0xF000 = 0x7000 -> length (V c) = 16%nat ->
  V c !! xreg (opcode c) = Some a ->
  decode_switch rnd c =
  Returns tt
    (with_pc (uint16 (pc c + 2))
       (with_V (<[xreg (opcode c) := byte (a + byte (Z.land (opcode c) 0x00FF))]>
                  (V c)) c))
    [].
Proof.
  intros Hf Hlen Ha.
  unfold decode_switch. rewrite bind_get. cbv zeta. rewrite Hf. cbv iota.
  rewrite bind_assoc. rewrite (bind_rdV _ _ a) by exact Ha.
  rewrite bind_stV by (pose proof (vXPos_bounds (opcode c)); lia).
  rewrite incrementProgramCounter_eq. reflexivity.
Qed.

(** [LD Vx, kk] followed by [ADD Vx, kk2]: the register is right, the
    program counter has moved by 8. *)
Lemma ld_then_add c op1 op2 :
  length (V c) = 16%nat ->
  Z.land op1 0xF000 = 0x6000 -> Z.land op2 0xF000 = 0x7000 ->
  xreg op1 = xreg op2 ->
  exists c' out,
    exec_ops rnd [op1; op2] c = Returns tt c' out /\
    V c' !! xreg op1 = Some (byte (Z.land op1 0x00FF + Z.land op2 0x00FF)) /\
    pc c' = uint16 (pc c + 8).
Proof.
  intros Hlen H1 H2 Hx.
  pose proof (decode_switch_ld (with_opcode op1 c) H1 Hlen) as E1.
  apply exec_op_eq in E1. simpl in E1.
  set (c1 := with_pc _ (timers_after _)) in E1.
  destruct (timers_after_fields
              (with_pc (uint16 (pc c + 2))
                 (with_V (<[xreg op1 := byte (Z.land op1 255)]> (V c))
                    (with_opcode op1 c)))) as (HV & _ & Hpc & _).
  assert (HV1 : V c1 = <[xreg op1 := byte (Z.land op1 255)]> (V c))
    by (subst c1; simpl; rewrite HV; reflexivity).
  assert (Hpc1 : pc c1 = uint16 (uint16 (pc c + 2) + 2)) by reflexivity.
  clearbody c1. clear HV Hpc.
  assert (Hx1 : (xreg op1 < 16)%nat)
    by (unfold xreg; pose proof (vXPos_bounds op1); lia).
  assert (Hlen1 : length (V (with_opcode op2 c1)) = 16%nat)
    by (simpl; rewrite HV1, length_insert; exact Hlen).
  assert (Ha : V (with_opcode op2 c1) !! xreg (opcode (with_opcode op2 c1))
               = Some (byte (Z.land op1 255))).
  { simpl. rewrite HV1, <- Hx. apply list_lookup_insert_eq. lia. }
  pose proof (decode_switch_add_byte (with_opcode op2 c1) _ H2 Hlen1 Ha) as E2.
  apply exec_op_eq in E2.
  match type of E2 with
  | context [timers_after ?s] =>
      destruct (timers_after_fields s) as (HV2 & _ & Hpc2 & _)
  end.
  eexists _, _. split.
  - simpl exec_ops. rewrite (bind_Returns _ _ _ _ _ _ E1).
    rewrite (bind_Returns _ _ _ _ _ _ E2). simpl. reflexivity.
  - simpl in HV2, Hpc2. split.
    + simpl. rewrite HV2, HV1, <- Hx.
      rewrite list_insert_insert_eq, list_lookup_insert_eq by lia.
      f_equal. unfold byte. rewrite <- Zplus_mod. reflexivity.
    + simpl. rewrite Hpc1. rewrite !uint16_add_l.
      rewrite <- Z.add_assoc, uint16_add_l. f_equal. lia.
Qed.

Lemma decode_switch_add c a b z :
  Z.land (opcode c) 0xF000 = 0x8000 -> Z.land (opcode c) 0x000F = 0x4 ->
  length (V c) = 16%nat ->
  xreg (opcode c) <> 15%nat -> yreg (opcode c) <> 15%nat ->
  V c !! xreg (opcode c) = Some a ->
  V c !! yreg (opcode c) = Some b ->
  V c !! 0%nat = Some z ->
  decode_switch rnd c =
  Returns tt
    (with_pc (uint16 (pc c + 2))
       (with_V (<[xreg (opcode c) := byte (a + z)]>
                  (<[15%nat := if a >? byte (0xFF - b) then 1 else 0]> (V c)))
               c)) [].
Proof.
  intros Hf Hs Hlen Hx Hy Ha Hb Hz.
  unfold decode_switch. rewrite bind_get. cbv zeta. rewrite Hf. cbv iota.
  rewrite Hs. cbv iota.
  fold (xreg (opcode c)) in *.
  rewrite bind_stV by (rewrite Hlen; simpl; lia).
  change (Z.to_nat 15) with 15%nat.
  rewrite !bind_assoc.
  rewrite (bind_rdV _ _ a) by (simpl; rewrite list_lookup_insert_ne; auto).
  rewrite bind_assoc.
  rewrite (bind_rdV _ _ b) by (simpl; rewrite list_lookup_insert_ne; auto).
  rewrite vYPos_shifted.
  destruct (a >? byte (255 - b)); unfold when.
  - rewrite bind_stV by (simpl; rewrite length_insert, Hlen; simpl; lia).
    change (Z.to_nat 15) with 15%nat.
    rewrite !bind_assoc.
    rewrite (bind_rdV _ _ a) by (simpl; rewrite !list_lookup_insert_ne; auto).
    rewrite bind_assoc.
    rewrite (bind_rdV _ _ z) by (simpl; rewrite !list_lookup_insert_ne; auto).
    rewrite bind_stV
      by (simpl; rewrite !length_insert, Hlen; pose proof (vXPos_bounds (opcode c)); lia).
    rewrite incrementProgramCounter_eq. simpl.
    rewrite list_insert_insert_eq. reflexivity.
  - rewrite bind_ret.
    rewrite !bind_assoc.
    rewrite (bind_rdV _ _ a) by (simpl; rewrite !list_lookup_insert_ne; auto).
    rewrite bind_assoc.
    rewrite (bind_rdV _ _ z) by (simpl; rewrite !list_lookup_insert_ne; auto).
    rewrite bind_stV
      by (simpl; rewrite !length_insert, Hlen; pose proof (vXPos_bounds (opcode c)); lia).
    rewrite incrementProgramCounter_eq. reflexivity.
Qed.

Lemma decode_switch_sub c a b :
  Z.land (opcode c) 0xF000 = 0x8000 -> Z.land (opcode c) 0x000F = 0x5 ->
  length (V c) = 16%nat ->
  xreg (opcode c) <> 15%nat -> yreg (opcode c) <> 15%nat ->
  V c !! xreg (opcode c) = Some a ->
  V c !! yreg (opcode c) = Some b ->
  decode_switch rnd c =
  Returns tt
    (with_pc (uint16 (pc c + 2))
       (with_V (<[xreg (opcode c) := byte (a - b)]>
                  (<[15%nat := if a >? byte (0xFF - b) then 1 else 0]> (V c)))
               c)) [].
Proof.
  intros Hf Hs Hlen Hx Hy Ha Hb.
  unfold decode_switch. rewrite bind_get. cbv zeta. rewrite Hf. cbv iota.
  rewrite Hs. cbv iota.
  fold (xreg (opcode c)) in *.
  rewrite bind_stV by (rewrite Hlen; simpl; lia).
  change (Z.to_nat 15) with 15%nat.
  rewrite !bind_assoc.
  rewrite (bind_rdV _ _ a) by (simpl; rewrite list_lookup_insert_ne; auto).
  rewrite bind_assoc.
  rewrite (bind_rdV _ _ b) by (simpl; rewrite list_lookup_insert_ne; auto).
  destruct (a >? byte (255 - b)); unfold when.
  - rewrite bind_stV by (simpl; rewrite length_insert, Hlen; simpl; lia).
    change (Z.to_nat 15) with 15%nat.
    rewrite !bind_assoc.
    rewrite (bind_rdV _ _ a) by (simpl; rewrite !list_lookup_insert_ne; auto).
    rewrite bind_assoc.
    rewrite (bind_rdV _ _ b) by (simpl; rewrite !list_lookup_insert_ne; auto).
    rewrite bind_stV
      by (simpl; rewrite !length_insert, Hlen; pose proof (vXPos_bounds (opcode c)); lia).
    rewrite incrementProgramCounter_eq. simpl.
    rewrite list_insert_insert_eq. reflexivity.
  - rewrite bind_ret.
    rewrite !bind_assoc.
    rewrite (bind_rdV _ _ a) by (simpl; rewrite !list_lookup_insert_ne; auto).
    rewrite bind_assoc.
    rewrite (bind_rdV _ _ b) by (simpl; rewrite !list_lookup_insert_ne; auto).
    rewrite bind_stV
      by (simpl; rewrite !length_insert, Hlen; pose proof (vXPos_bounds (opcode c)); lia).
    rewrite incrementProgramCounter_eq. reflexivity.
Qed.

(** The example of the specification, V0 = 0x01 and V1 = 0x02 under 0x8015,
    comes out as expected: V0 = 0xFF and VF = 0. *)
Lemma sub_with_borrow_example :
  exists c',
    decode rnd
      (with_opcode 0x8015
         (with_V (<[1%nat := 0x02]> (<[0%nat := 0x01]> (V initial))) initial))
    = Returns tt c' [] /\
    V c' !! 0%nat = Some 0xFF /\ V c' !! 15%nat = Some 0.
Proof.
  eexists. split; [ vm_compute; reflexivity | split; reflexivity ].
Qed.

(** *** DRW *)

Lemma decode_draw c :
  Z.land (opcode c) 0xF000 = 0xD000 ->
  decode rnd c = Returns tt (timers_after c) (beeps c).
Proof.
  intros Hf. apply decode_eq. unfold decode_switch. rewrite bind_get. cbv zeta.
  rewrite Hf. reflexivity.
Qed.

(** *** CALL, RET and the stack *)

Lemma decode_switch_call c :
  is_call (opcode c) -> (Z.to_nat (sp c) < length (stack c))%nat ->
  decode_switch rnd c =
  Returns tt
    (with_pc (uint16 (Z.land (opcode c) 0x0FFF))
       (with_sp (uint16 (sp c + 1))
          (with_stack (<[Z.to_nat (sp c) := byte (pc c)]> (stack c)) c))) [].
Proof.
  intros Hop Hsp. unfold decode_switch. rewrite bind_get. cbv zeta.
  rewrite Hop. cbv iota.
  rewrite bind_assoc, bind_get.
  rewrite (bind_Returns_nil _ _ _ _ _ (stStack_ok c _ _ Hsp)).
  rewrite bind_assoc, bind_get, bind_modify. reflexivity.
Qed.

(** With the stack pointer past the last slot, the assignment
    [c.stack[c.sp] = byte(c.pc)] fails its bounds check before anything is
    written. *)
Lemma decode_call_out_of_range c :
  is_call (opcode c) -> (length (stack c) <= Z.to_nat (sp c))%nat ->
  decode rnd c = Panics (IndexOutOfRange (sp c) (length (stack c))) c [].
Proof.
  intros Hop Hsp. unfold decode. apply bind_Panics.
  unfold decode_switch. rewrite bind_get. cbv zeta. rewrite Hop. cbv iota.
  apply bind_Panics. rewrite bind_get. apply stStack_out, Hsp.
Qed.

Lemma exec_op_call op c :
  is_call op -> length (stack c) = 16%nat -> 0 <= sp c < 16 ->
  exists c' out,
    exec_op rnd op c = Returns tt c' out /\
    sp c' = sp c + 1 /\
    stack c' = <[Z.to_nat (sp c) := byte (pc c)]> (stack c) /\
    pc c' = uint16 (uint16 (Z.land op 0x0FFF) + 2).
Proof.
  intros Hop Hlen Hsp. unfold exec_op. rewrite bind_modify.
  set (c1 := with_opcode op c).
  assert (Hlt : (Z.to_nat (sp c1) < length (stack c1))%nat)
    by (simpl; lia).
  pose proof (decode_switch_call c1 Hop Hlt) as E.
  set (c2 := with_pc _ _) in E.
  unfold decode. rewrite bind_assoc.
  rewrite (bind_Returns_nil _ _ _ _ _ E).
  rewrite (bind_Returns _ _ _ _ _ _ (decode_timers_eq c2)).
  rewrite execute_eq. simpl prepend.
  destruct (timers_after_fields c2) as (_ & _ & Hpc & Hs & _ & _ & _ & Hst & _).
  eexists _, _. split; [ reflexivity | ]. simpl.
  rewrite Hs, Hst, Hpc. simpl.
  repeat split. apply Z.mod_small. lia.
Qed.

Lemma exec_ops_calls ops :
  Forall is_call ops ->
  forall c,
    length (stack c) = 16%nat -> 0 <= sp c ->
    sp c + Z.of_nat (length ops) <= 16 ->
    exists c' out,
      exec_ops rnd ops c = Returns tt c' out /\
      sp c' = sp c + Z.of_nat (length ops) /\
      length (stack c') = 16%nat.
Proof.
  induction 1 as [ | op ops Hop Hops IH ]; intros c Hlen H0 Hn.
  - exists c, []. simpl. repeat split; [ lia | exact Hlen ].
  - simpl length in *.
    destruct (exec_op_call op c Hop Hlen) as (c1 & o1 & E1 & Hsp & Hst & _);
      [ lia | ].
    destruct (IH c1) as (c2 & o2 & E2 & Hsp2 & Hlen2).
    + rewrite Hst, length_insert. exact Hlen.
    + lia.
    + lia.
    + exists c2, (o1 ++ o2). simpl exec_ops.
      rewrite (bind_Returns _ _ _ _ _ _ E1), E2. simpl.
      repeat split; [ lia | exact Hlen2 ].
Qed.

Lemma decode_switch_ret c s :
  is_ret (opcode c) ->
  stack c !! Z.to_nat (uint16 (sp c - 1)) = Some s ->
  decode_switch rnd c =
  Returns tt (with_pc (uint16 (uint16 s + 2)) (with_sp (uint16 (sp c - 1)) c)) [].
Proof.
  intros [Hf Hs] Hst. unfold decode_switch. rewrite bind_get. cbv zeta.
  rewrite Hf. cbv iota. rewrite Hs. cbv iota.
  rewrite bind_assoc, bind_get, bind_modify.
  rewrite bind_assoc, bind_get. unfold rdStack.
  rewrite !bind_assoc, bind_get. unfold index. simpl stack. simpl sp.
  rewrite Hst. rewrite bind_ret, bind_modify.
  rewrite incrementProgramCounter_eq. reflexivity.
Qed.

(** CALL then RET: the stack pointer is back where it was, and the program
    counter is the low byte of the CALL's address plus 2. *)
Lemma call_then_return c opc opr :
  is_call opc -> is_ret opr ->
  length (stack c) = 16%nat -> 0 <= sp c < 16 ->
  exists c1 c2 o1 o2,
    decode rnd (with_opcode opc c) = Returns tt c1 o1 /\
    pc c1 = uint16 (Z.land opc 0x0FFF) /\ sp c1 = sp c + 1 /\
    decode rnd (with_opcode opr c1) = Returns tt c2 o2 /\
    sp c2 = sp c /\ pc c2 = uint16 (byte (pc c) + 2).
Proof.
  intros Hc Hr Hlen Hsp.
  assert (Hlt : (Z.to_nat (sp (with_opcode opc c))
                 < length (stack (with_opcode opc c)))%nat) by (simpl; lia).
  pose proof (decode_eq _ _ _ (decode_switch_call (with_opcode opc c) Hc Hlt)) as E1.
  match type of E1 with
  | context [timers_after ?s] =>
      destruct (timers_after_fields s) as (_ & _ & Hpc1 & Hsp1 & _ & _ & _ & Hst1 & _)
  end.
  simpl in E1, Hpc1, Hsp1, Hst1.
  set (c1 := timers_after _) in *. clearbody c1.
  assert (Hsp1' : sp c1 = sp c + 1)
    by (rewrite Hsp1; apply Z.mod_small; lia).
  assert (Hs : stack (with_opcode opr c1)
               !! Z.to_nat (uint16 (sp (with_opcode opr c1) - 1))
               = Some (byte (pc c))).
  { simpl. rewrite Hsp1', Hst1.
    replace (sp c + 1 - 1) with (sp c) by lia.
    unfold uint16. rewrite Z.mod_small by lia.
    apply list_lookup_insert_eq. lia. }
  pose proof (decode_eq _ _ _ (decode_switch_ret (with_opcode opr c1) _ Hr Hs)) as E2.
  match type of E2 with
  | context [timers_after ?s] =>
      destruct (timers_after_fields s) as (_ & _ & Hpc2 & Hsp2 & _)
  end.
  simpl in E2, Hpc2, Hsp2.
  eexists _, _, _, _. split; [ exact E1 | ].
  split; [ exact Hpc1 | ]. split; [ exact Hsp1' | ].
  split; [ exact E2 | ]. split.
  - rewrite Hsp2, Hsp1'. replace (sp c + 1 - 1) with (sp c) by lia.
    apply Z.mod_small. lia.
  - rewrite Hpc2. apply uint16_add_l.
Qed.

(** *** Opcodes the switch does not know *)

Lemma decode_switch_unknown0 c :
  Z.land (opcode c) 0xF000 = 0x0000 ->
  Z.land (opcode c) 0x000F <> 0x0 -> Z.land (opcode c) 0x000F <> 0xE ->
  decode_switch rnd c = Panics (UnknownOpcode0 (opcode c)) c [].
Proof.
  intros Hf H0 HE. unfold decode_switch. rewrite bind_get. cbv zeta.
  rewrite Hf. cbv iota.
  destruct (Z.land (opcode c) 15) as [ | p | p ]; [ contradiction | | reflexivity ].
  do 4 (try (destruct p as [ p | p | ]; try reflexivity)); contradiction.
Qed.

Lemma decode_switch_unknown8 c :
  Z.land (opcode c) 0xF000 = 0x8000 ->
  7 < Z.land (opcode c) 0x000F -> Z.land (opcode c) 0x000F <> 0xE ->
  decode_switch rnd c = Panics (UnknownCode8 (opcode c)) c [].
Proof.
  intros Hf H7 HE. unfold decode_switch. rewrite bind_get. cbv zeta.
  rewrite Hf. cbv iota.
  destruct (Z.land (opcode c) 15) as [ | p | p ]; [ lia | | lia ].
  do 4 (try (destruct p as [ p | p | ]; try reflexivity)); try lia;
    contradiction.
Qed.

(** A cycle whose fetched word the switch rejects: the panic finds the
    machine as the cycle found it, the word in [c.opcode] apart. *)
Lemma EmulateCycle_unknown_opcode c hi lo :
  0 <= pc c -> pc c + 1 < 65536 ->
  memory c !! Z.to_nat (pc c) = Some hi ->
  memory c !! Z.to_nat (pc c + 1) = Some lo ->
  0 <= lo < 256 -> Z.land lo 0x000F <> 0x0 -> Z.land lo 0x000F <> 0xE ->
  EmulateCycle rnd c = Panics (UnknownOpcode0 lo) (with_opcode lo c) [].
Proof.
  intros H0 H1 Hhi Hlo Hb Hn0 HnE.
  rewrite (EmulateCycle_low_byte rnd c hi lo H0 H1 Hhi Hlo).
  apply bind_Panics, bind_Panics.
  apply (decode_switch_unknown0 (with_opcode lo c));
    [ apply family_of_byte, Hb | exact Hn0 | exact HnE ].
Qed.

End Instructions.

(** ** Frames *)

Lemma frame_refl c : frame c c.
Proof. constructor; reflexivity. Qed.

Lemma frame_trans c1 c2 c3 : frame c1 c2 -> frame c2 c3 -> frame c1 c3.
Proof.
  intros [] []. constructor; etransitivity; eassumption.
Qed.

Lemma frame_Vlen_pres c c' : frame c c' -> Vlen c -> Vlen c'.
Proof. intros [H _ _ _ _ _ _ _ _] Hc. unfold Vlen in *. congruence. Qed.

Lemma keeps_at_bind {A B} c (m : M A) (k : A -> M B) :
  keeps_at c m -> (forall a, keeps (k a)) -> keeps_at c (bind m k).
Proof.
  intros Hm Hk Hc. destruct (Hm Hc) as (a & c1 & o1 & E1 & F1).
  destruct (Hk a c1 (frame_Vlen_pres _ _ F1 Hc)) as (b & c2 & o2 & E2 & F2).
  exists b, c2, (o1 ++ o2). split.
  - rewrite (bind_Returns _ _ _ _ _ _ E1), E2. reflexivity.
  - eapply frame_trans; eassumption.
Qed.

Lemma keeps_bind {A B} (m : M A) (k : A -> M B) :
  keeps m -> (forall a, keeps (k a)) -> keeps (bind m k).
Proof. intros Hm Hk c. apply keeps_at_bind; [ apply Hm | exact Hk ]. Qed.

Lemma keeps_ret {A} (a : A) : keeps (ret a).
Proof. intros c _. exists a, c, []. split; [ reflexivity | apply frame_refl ]. Qed.

Lemma keeps_get : keeps get.
Proof. intros c _. exists c, c, []. split; [ reflexivity | apply frame_refl ]. Qed.


Lemma keeps_when b m : keeps m -> keeps (when b m).
Proof. intros H. destruct b; [ exact H | apply keeps_ret ]. Qed.

Lemma keeps_with_pc v : keeps (modify (with_pc v)).
Proof.
  intros c _. exists tt, (with_pc v c), []. split; [ reflexivity | ].
  constructor; reflexivity.
Qed.



Lemma keeps_rdV i : 0 <= i < 16 -> keeps (rdV i).
Proof.
  intros Hi c Hc. unfold rdV. rewrite bind_get.
  destruct (index_ok (V c) i) as (v & _ & E).
  - unfold Vlen in Hc. lia.
  - exists v, c, []. split; [ apply E | apply frame_refl ].
Qed.

Lemma keeps_stV i v : 0 <= i < 16 -> keeps (stV i v).
Proof.
  intros Hi c Hc. unfold stV. rewrite bind_get.
  assert (Hlt : (Z.to_nat i < length (V c))%nat) by (unfold Vlen in Hc; lia).
  rewrite (bind_Returns_nil _ _ _ _ _ (assign_ok (V c) i v c Hlt)).
  exists tt, (with_V (<[Z.to_nat i := v]> (V c)) c), [].
  split; [ reflexivity | ].
  constructor; try reflexivity. simpl. apply length_insert.
Qed.

Lemma keeps_incrementProgramCounter : keeps incrementProgramCounter.
Proof.
  unfold incrementProgramCounter. apply keeps_bind; [ apply keeps_get | ].
  intros a. apply keeps_with_pc.
Qed.



Ltac keeps_step :=
  first
    [ apply keeps_when
    | apply keeps_incrementProgramCounter
    | apply keeps_rdV
    | apply keeps_stV
    | apply keeps_ret
    | apply keeps_bind; [ | intro ]
    | apply vXPos_bounds
    | apply vYPos_bounds
    | apply register_zero_bounds
    | lia ].

Lemma keeps_at_get {A} c (k : Chip8 -> M A) :
  keeps_at c (k c) -> keeps_at c (bind get k).
Proof. intros H Hc. rewrite bind_get. exact (H Hc). Qed.

Lemma keeps_decode_switch rnd c :
  register_only (opcode c) -> keeps_at c (decode_switch rnd).
Proof.
  intros H. unfold decode_switch. apply keeps_at_get. cbv beta zeta.
  destruct H as [H | [H8 H]].
  - simpl in H.
    repeat (destruct H as [H | H];
            [ rewrite <- H; cbv iota; refine ((_ : keeps _) c);
              repeat keeps_step | ]).
    contradiction.
  - rewrite H8. cbv iota. simpl in H.
    repeat (destruct H as [H | H];
            [ rewrite <- H; cbv iota; refine ((_ : keeps _) c);
              repeat keeps_step | ]).
    contradiction.
Qed.


(** ** The switch leaves the timers alone *)

Lemma silent_ret {A} (a : A) : silent (ret a).
Proof. intros c. simpl. split; [ split | ]; reflexivity. Qed.

Lemma silent_get : silent get.
Proof. intros c. simpl. split; [ split | ]; reflexivity. Qed.

Lemma silent_throw {A} p : silent (@throw A p).
Proof. intros c. simpl. split; [ split | ]; reflexivity. Qed.

Lemma silent_bind {A B} (m : M A) (k : A -> M B) :
  silent m -> (forall a, silent (k a)) -> silent (bind m k).
Proof.
  intros Hm Hk c. unfold bind. specialize (Hm c).
  destruct (m c) as [a c1 o1 | p c1 o1]; [ | exact Hm ].
  destruct Hm as [[Hd Hs] ->]. specialize (Hk a c1).
  destruct (k a c1) as [b c2 o2 | p c2 o2];
    destruct Hk as [[Hd2 Hs2] ->]; (split; [ split; congruence | reflexivity ]).
Qed.

Lemma silent_when b m : silent m -> silent (when b m).
Proof. intros H. destruct b; [ exact H | apply silent_ret ]. Qed.

Lemma silent_modify f :
  (forall c, same_timers c (f c)) -> silent (modify f).
Proof. intros H c. simpl. split; [ apply H | reflexivity ]. Qed.

Lemma silent_index a i : silent (index a i).
Proof.
  unfold index. destruct (a !! Z.to_nat i); [ apply silent_ret | apply silent_throw ].
Qed.

Lemma silent_assign a i v : silent (assign a i v).
Proof.
  unfold assign. destruct (Z.to_nat i <? length a)%nat;
    [ apply silent_ret | apply silent_throw ].
Qed.

Lemma silent_for_range n body :
  (forall i, silent (body i)) -> forall i, silent (for_range n i body).
Proof.
  intros Hb. induction n as [ | n IH ]; intros i; simpl.
  - apply silent_ret.
  - apply silent_bind; [ apply Hb | intros _; apply IH ].
Qed.

Ltac silent_step :=
  first
    [ apply silent_ret
    | apply silent_get
    | apply silent_throw
    | apply silent_index
    | apply silent_assign
    | apply silent_when
    | apply silent_modify; intro; split; reflexivity
    | apply silent_for_range; intro
    | apply silent_bind; [ | intro ] ].

Lemma silent_decode_switch rnd : silent (decode_switch rnd).
Proof.
  unfold decode_switch, for_upto, incrementProgramCounter, rdV, rdStack, stV,
    stStack, stGfx.
  apply silent_bind; [ apply silent_get | intros c ]. cbv zeta.
  repeat match goal with
         | |- silent (match ?x with _ => _ end) => destruct x
         end;
    repeat silent_step.
Qed.

(** After a call of [decode] that returns, the sound timer is what it was
    unless it was 1, and the log holds a beep exactly in that case. *)
Lemma decode_sound_timer rnd c c' out :
  decode rnd c = Returns tt c' out ->
  soundTimer c' = (if soundTimer c =? 1 then 0 else soundTimer c) /\
  out = beeps c.
Proof.
  unfold decode, bind. pose proof (silent_decode_switch rnd c) as H.
  destruct (decode_switch rnd c) as [[] c1 o1 | p c1 o1]; [ | discriminate ].
  destruct H as [[_ Hs] ->]. rewrite decode_timers_eq. intros E.
  inversion E; subst. rewrite soundTimer_after, Hs. split; [ reflexivity | ].
  unfold beeps. rewrite Hs. reflexivity.
Qed.

(** ** Bytes *)

Lemma is_byte_iff z : is_byte z = true <-> 0 <= z < 256.
Proof. unfold is_byte. rewrite andb_true_iff, Z.leb_le, Z.ltb_lt. tauto. Qed.

Lemma is_uint16_iff z : is_uint16 z = true <-> 0 <= z < 65536.
Proof. unfold is_uint16. rewrite andb_true_iff, Z.leb_le, Z.ltb_lt. tauto. Qed.

Lemma is_byte_byte z : is_byte (byte z) = true.
Proof. apply is_byte_iff, Z.mod_pos_bound. lia. Qed.

Lemma is_uint16_uint16 z : is_uint16 (uint16 z) = true.
Proof. apply is_uint16_iff, Z.mod_pos_bound. lia. Qed.

Lemma byte_high_bits z :
  0 <= z -> (z < 256 <-> forall n, 8 <= n -> Z.testbit z n = false).
Proof.
  intros H0. split.
  - intros Hz n Hn. destruct (Z.eq_dec z 0) as [-> | Hne];
      [ apply Z.bits_0 | ].
    apply Z.bits_above_log2; [ exact H0 | ].
    apply Z.lt_le_trans with 8; [ | exact Hn ].
    apply Z.log2_lt_pow2; lia.
  - intros Hb. destruct (Z.lt_ge_cases z 256) as [ | Hge ]; [ assumption | ].
    assert (Hl : 8 <= Z.log2 z) by (apply (Z.log2_le_pow2 z 8); lia).
    pose proof (Z.bit_log2 z ltac:(lia)) as Hbit.
    rewrite Hb in Hbit by exact Hl. discriminate.
Qed.

Lemma is_byte_bitwise (f : Z -> Z -> Z) (g : bool -> bool -> bool) a b :
  g false false = false ->
  (forall n, 0 <= n -> Z.testbit (f a b) n = g (Z.testbit a n) (Z.testbit b n)) ->
  0 <= f a b ->
  is_byte a = true -> is_byte b = true -> is_byte (f a b) = true.
Proof.
  intros Hg Hspec H0 Ha Hb. apply is_byte_iff in Ha, Hb. apply is_byte_iff.
  split; [ exact H0 | ]. apply byte_high_bits; [ exact H0 | ].
  intros n Hn. rewrite Hspec by lia.
  rewrite (proj1 (byte_high_bits a (proj1 Ha)) (proj2 Ha) n Hn).
  rewrite (proj1 (byte_high_bits b (proj1 Hb)) (proj2 Hb) n Hn).
  exact Hg.
Qed.

Lemma is_byte_lor a b :
  is_byte a = true -> is_byte b = true -> is_byte (Z.lor a b) = true.
Proof.
  intros Ha Hb. apply (is_byte_bitwise Z.lor orb); try assumption.
  - reflexivity.
  - intros n _. apply Z.lor_spec.
  - apply is_byte_iff in Ha, Hb. apply Z.lor_nonneg. lia.
Qed.

Lemma is_byte_land a b :
  is_byte a = true -> is_byte b = true -> is_byte (Z.land a b) = true.
Proof.
  intros Ha Hb. apply (is_byte_bitwise Z.land andb); try assumption.
  - reflexivity.
  - intros n _. apply Z.land_spec.
  - apply is_byte_iff in Ha, Hb. apply Z.land_nonneg. lia.
Qed.

Lemma is_byte_lxor a b :
  is_byte a = true -> is_byte b = true -> is_byte (Z.lxor a b) = true.
Proof.
  intros Ha Hb. apply (is_byte_bitwise Z.lxor xorb); try assumption.
  - reflexivity.
  - intros n _. apply Z.lxor_spec.
  - apply is_byte_iff in Ha, Hb. apply Z.lxor_nonneg. lia.
Qed.

Lemma is_byte_shiftr a n :
  0 <= n -> is_byte a = true -> is_byte (Z.shiftr a n) = true.
Proof.
  intros Hn Ha. apply is_byte_iff in Ha. apply is_byte_iff.
  rewrite Z.shiftr_div_pow2 by exact Hn.
  assert (Hp : 0 < 2 ^ n) by (apply Z.pow_pos_nonneg; lia).
  split; [ apply Z.div_pos; lia | ].
  apply Z.le_lt_trans with a; [ | lia ].
  apply Z.div_le_upper_bound; [ exact Hp | ]. nia.
Qed.

Lemma is_byte_is_uint16 z : is_byte z = true -> is_uint16 z = true.
Proof. rewrite is_byte_iff, is_uint16_iff. lia. Qed.


(** ** Arrays of bytes *)

Lemma is_array_iff n a :
  is_array n a = true <->
  Z.of_nat (length a) = n /\ Forall (fun z => is_byte z = true) a.
Proof.
  unfold is_array. rewrite andb_true_iff, Z.eqb_eq, forallb_forall.
  rewrite Forall_forall. setoid_rewrite list_elem_of_In. reflexivity.
Qed.

Lemma is_array_lookup n a i v :
  is_array n a = true -> a !! i = Some v -> is_byte v = true.
Proof.
  intros Ha Hv. apply is_array_iff in Ha. destruct Ha as [_ Ha].
  exact (Forall_lookup_1 _ _ _ _ Ha Hv).
Qed.

Lemma is_array_insert n a i v :
  is_array n a = true -> is_byte v = true -> is_array n (<[i := v]> a) = true.
Proof.
  intros Ha Hv. apply is_array_iff in Ha. destruct Ha as [Hl Ha].
  apply is_array_iff. split; [ rewrite length_insert; exact Hl | ].
  apply Forall_insert; assumption.
Qed.

(** ** The shape of the state is an invariant *)

Lemma wf_shaped c : wf c <-> shaped c.
Proof.
  unfold wf, wfb. rewrite !andb_true_iff. split.
  - intros H. decompose [and] H. constructor; assumption.
  - intros []. tauto.
Qed.

Lemma stays_ret {A} (a : A) (Q : A -> Prop) : Q a -> stays (ret a) Q.
Proof. intros H c Hc. simpl. split; assumption. Qed.

Lemma stays_get : stays get shaped.
Proof. intros c Hc. simpl. split; assumption. Qed.

Lemma stays_throw {A} p (Q : A -> Prop) : stays (throw p) Q.
Proof. intros c Hc. exact Hc. Qed.

Lemma stays_println l : stays (println l) any.
Proof. intros c Hc. simpl. split; [ exact Hc | exact I ]. Qed.

Lemma stays_bind {A B} (m : M A) (k : A -> M B) Q R :
  stays m Q -> (forall a, Q a -> stays (k a) R) -> stays (bind m k) R.
Proof.
  intros Hm Hk c Hc. unfold bind. specialize (Hm c Hc).
  destruct (m c) as [a c1 o1 | p c1 o1]; [ | exact Hm ].
  destruct Hm as [Hc1 Ha]. specialize (Hk a Ha c1 Hc1).
  destruct (k a c1); exact Hk.
Qed.

Lemma stays_when b m : stays m any -> stays (when b m) any.
Proof. intros H. destruct b; [ exact H | apply stays_ret; exact I ]. Qed.

Lemma stays_modify f : (forall c, shaped c -> shaped (f c)) -> stays (modify f) any.
Proof. intros H c Hc. simpl. split; [ apply H, Hc | exact I ]. Qed.

Lemma stays_index n a i :
  is_array n a = true -> stays (index a i) (fun v => is_byte v = true).
Proof.
  intros Ha. unfold index. destruct (a !! Z.to_nat i) as [v | ] eqn:E.
  - apply stays_ret. exact (is_array_lookup n a _ v Ha E).
  - apply stays_throw.
Qed.

Lemma stays_assign n a i v :
  is_array n a = true -> is_byte v = true ->
  stays (assign a i v) (fun a' => is_array n a' = true).
Proof.
  intros Ha Hv. unfold assign. destruct (Z.to_nat i <? length a)%nat.
  - apply stays_ret, is_array_insert; assumption.
  - apply stays_throw.
Qed.

Lemma stays_for_range n body :
  (forall i, stays (body i) any) -> forall i, stays (for_range n i body) any.
Proof.
  intros Hb. induction n as [ | n IH ]; intros i; simpl.
  - apply stays_ret. exact I.
  - eapply stays_bind; [ apply Hb | intros _ _; apply IH ].
Qed.

Lemma stays_rdV i : stays (rdV i) (fun v => is_byte v = true).
Proof.
  unfold rdV. eapply stays_bind; [ apply stays_get | ].
  intros c Hc. apply (stays_index 16), Hc.
Qed.

Lemma stays_rdStack i : stays (rdStack i) (fun v => is_byte v = true).
Proof.
  unfold rdStack. eapply stays_bind; [ apply stays_get | ].
  intros c Hc. apply (stays_index 16), Hc.
Qed.

Lemma stays_rdMemory i : stays (rdMemory i) (fun v => is_byte v = true).
Proof.
  unfold rdMemory. eapply stays_bind; [ apply stays_get | ].
  intros c Hc. apply (stays_index 4096), Hc.
Qed.

Ltac stays_store field :=
  intros Hv; eapply stays_bind; [ apply stays_get | ]; intros c Hc;
  eapply stays_bind; [ eapply stays_assign; [ apply Hc | exact Hv ] | ];
  intros a Ha; apply stays_modify; intros c' []; constructor; assumption.

Lemma stays_stV i v : is_byte v = true -> stays (stV i v) any.
Proof. unfold stV. stays_store V. Qed.

Lemma stays_stStack i v : is_byte v = true -> stays (stStack i v) any.
Proof. unfold stStack. stays_store stack. Qed.

Lemma stays_stMemory i v : is_byte v = true -> stays (stMemory i v) any.
Proof. unfold stMemory. stays_store memory. Qed.

Lemma stays_stGfx i v : is_byte v = true -> stays (stGfx i v) any.
Proof. unfold stGfx. stays_store gfx. Qed.

Lemma stays_stKey i v : is_byte v = true -> stays (stKey i v) any.
Proof. unfold stKey. stays_store key. Qed.

Lemma stays_with_pc v : stays (modify (with_pc (uint16 v))) any.
Proof.
  apply stays_modify. intros c []. constructor; try assumption.
  apply is_uint16_uint16.
Qed.

Lemma stays_with_sp v : stays (modify (with_sp (uint16 v))) any.
Proof.
  apply stays_modify. intros c []. constructor; try assumption.
  apply is_uint16_uint16.
Qed.

Lemma stays_with_ir v : stays (modify (with_ir (uint16 v))) any.
Proof.
  apply stays_modify. intros c []. constructor; try assumption.
  apply is_uint16_uint16.
Qed.

Lemma stays_with_opcode v :
  is_uint16 v = true -> stays (modify (with_opcode v)) any.
Proof.
  intros Hv. apply stays_modify. intros c []. constructor; assumption.
Qed.

Lemma stays_with_delayedTimer v :
  is_byte v = true -> stays (modify (with_delayedTimer v)) any.
Proof.
  intros Hv. apply stays_modify. intros c []. constructor; assumption.
Qed.

Lemma stays_with_soundTimer v :
  is_byte v = true -> stays (modify (with_soundTimer v)) any.
Proof.
  intros Hv. apply stays_modify. intros c []. constructor; assumption.
Qed.

Lemma stays_with_drawFlag v : stays (modify (with_drawFlag v)) any.
Proof. apply stays_modify. intros c []. constructor; assumption. Qed.

Lemma stays_incrementProgramCounter : stays incrementProgramCounter any.
Proof.
  unfold incrementProgramCounter. eapply stays_bind; [ apply stays_get | ].
  intros c _. apply stays_with_pc.
Qed.

Lemma stays_execute : stays execute any.
Proof.
  unfold execute. eapply stays_bind; [ apply stays_get | ].
  intros c _. apply stays_with_pc.
Qed.

Ltac stays_step :=
  first
    [ apply stays_incrementProgramCounter
    | apply stays_with_pc
    | apply stays_with_sp
    | apply stays_with_ir
    | apply stays_throw
    | apply stays_when
    | apply stays_ret; exact I
    | apply stays_stV
    | apply stays_stStack
    | apply stays_stGfx
    | apply stays_for_range; intro
    | eapply stays_bind; [ first [ apply stays_rdV | apply stays_rdStack | apply stays_get ] | intros ? ? ]
    | eapply stays_bind; [ | intros _ _ ]
    | apply is_byte_byte
    | apply is_byte_lor; assumption
    | apply is_byte_land; assumption
    | apply is_byte_lxor; assumption
    | apply is_byte_shiftr; [ lia | assumption ]
    | assumption
    | reflexivity ].

Lemma stays_decode_switch rnd : stays (decode_switch rnd) any.
Proof.
  unfold decode_switch, for_upto.
  eapply stays_bind; [ apply stays_get | intros c Hc ]. cbv zeta.
  repeat match goal with
         | |- stays (match ?x with _ => _ end) _ => destruct x
         end;
    repeat stays_step.
Qed.

Lemma stays_decode_timers : stays decode_timers any.
Proof.
  unfold decode_timers.
  eapply stays_bind; [ | intros _ _ ];
    (eapply stays_bind; [ apply stays_get | intros c Hc ]).
  - apply stays_when, stays_with_delayedTimer, is_byte_byte.
  - do 2 apply stays_when.
    eapply stays_bind; [ apply stays_println | intros _ _ ].
    apply stays_with_soundTimer, is_byte_byte.
Qed.

Lemma stays_decode rnd : stays (decode rnd) any.
Proof.
  unfold decode. eapply stays_bind; [ apply stays_decode_switch | ].
  intros _ _. apply stays_decode_timers.
Qed.

Lemma stays_fetch : stays fetch any.
Proof.
  unfold fetch. eapply stays_bind; [ apply stays_get | intros c Hc ].
  eapply stays_bind; [ apply stays_rdMemory | intros hi Hhi ].
  eapply stays_bind; [ apply stays_rdMemory | intros lo Hlo ].
  apply stays_with_opcode, is_byte_is_uint16, is_byte_lor;
    [ apply is_byte_byte | exact Hlo ].
Qed.

Lemma stays_EmulateCycle rnd : stays (EmulateCycle rnd) any.
Proof.
  unfold EmulateCycle. eapply stays_bind; [ apply stays_fetch | intros _ _ ].
  eapply stays_bind; [ apply stays_decode | intros _ _ ].
  apply stays_execute.
Qed.

Lemma is_array_fontset : is_array FONTSET_SIZE getChip8Fontset = true.
Proof. reflexivity. Qed.

Lemma stays_initialize : stays initialize any.
Proof.
  unfold initialize, for_upto.
  eapply stays_bind; [ apply (stays_with_pc 0x200) | intros _ _ ].
  eapply stays_bind; [ apply stays_with_opcode; reflexivity | intros _ _ ].
  eapply stays_bind; [ apply (stays_with_ir 0) | intros _ _ ].
  eapply stays_bind; [ apply (stays_with_sp 0) | intros _ _ ].
  eapply stays_bind;
    [ apply stays_for_range; intro; apply stays_stGfx; reflexivity
    | intros _ _ ].
  eapply stays_bind;
    [ apply stays_for_range; intro; apply stays_stStack; reflexivity
    | intros _ _ ].
  eapply stays_bind;
    [ apply stays_for_range; intro;
      eapply stays_bind; [ apply stays_stKey; reflexivity | intros _ _ ];
      apply stays_stV; reflexivity
    | intros _ _ ].
  eapply stays_bind;
    [ apply stays_for_range; intro; apply stays_stMemory; reflexivity
    | intros _ _ ].
  eapply stays_bind;
    [ apply stays_for_range; intro;
      eapply stays_bind;
        [ apply (stays_index FONTSET_SIZE), is_array_fontset
        | intros b Hb; apply stays_stMemory, Hb ]
    | intros _ _ ].
  eapply stays_bind;
    [ apply stays_with_delayedTimer; reflexivity | intros _ _ ].
  eapply stays_bind;
    [ apply stays_with_soundTimer; reflexivity | intros _ _ ].
  apply stays_with_drawFlag.
Qed.

(** A cycle started in a state of the right shape ends in one. *)
Lemma EmulateCycle_wf rnd c :
  wf c ->
  match EmulateCycle rnd c with
  | Returns _ c' _ => wf c'
  | Panics _ c' _ => wf c'
  end.
Proof.
  intros H. apply wf_shaped in H.
  pose proof (stays_EmulateCycle rnd c H) as E.
  destruct (EmulateCycle rnd c); [ destruct E as [E _] | ]; apply wf_shaped, E.
Qed.

(** * The claims *)

(** C1 (fails on the code).  The claim: with pc+1 < 4096, [fetch] yields the
    word memory[pc]*256 + memory[pc+1].  The code: on the machine loaded with
    [60 12 ...] at pc = 0x200 the fetched word is 0x0012, the low byte
    alone, and not 0x6012. *)
Theorem fetch_drops_high_byte :
  pc loaded = 0x200 /\
  memory loaded !! 512%nat = Some 0x60 /\
  memory loaded !! 513%nat = Some 0x12 /\
  fetch loaded = Returns tt (with_opcode 0x0012 loaded) [] /\
  0x0012 <> 0x60 * 256 + 0x12.
Proof.
  split; [ reflexivity | ]. split; [ reflexivity | ]. split; [ reflexivity | ].
  split; [ | lia ].
  apply (fetch_low_byte loaded 0x60 0x12); [ simpl; lia | simpl; lia | | ];
    reflexivity.
Qed.

(** C2 (fails on the code).  The claim: an instruction that does not set pc
    advances it by 2 exactly once, so [6xkk] then [7xkk] advance it by 4.
    The code: [decode] advances pc and [execute] advances it again, so
    [LD V0, 0x12] takes pc from 0x200 to 0x204, [ADD V0, 0x01] on to 0x208
    (V0 = 0x13 as claimed), and [JP 0x300] ends at 0x302. *)
Theorem each_instruction_advances_twice :
  pc initial = 0x200 /\
  (exists c1 c2,
     exec_op 0 0x6012 initial = Returns tt c1 [] /\ pc c1 = 0x204 /\
     exec_op 0 0x7001 c1 = Returns tt c2 [] /\ pc c2 = 0x208 /\
     V c2 !! 0%nat = Some 0x13) /\
  (exists c3, exec_op 0 0x1300 initial = Returns tt c3 [] /\ pc c3 = 0x302).
Proof.
  split; [ reflexivity | ]. split.
  - eexists _, _. split; [ vm_compute; reflexivity | ].
    split; [ reflexivity | ]. split; [ vm_compute; reflexivity | ].
    split; reflexivity.
  - eexists. split; [ vm_compute; reflexivity | reflexivity ].
Qed.




(** C4 (fails on the code).  The claim: [8xy4] leaves Vx = (Vx + Vy) mod 256
    and VF = carry; with V0 = 0xFF, V1 = 0x01 the word 0x8014 gives V0 = 0x00
    and VF = 1.  The code: the addend is read at index [(vYPos) >> 4], which
    is register 0, so V0 becomes 0xFF + 0xFF = 0xFE (VF = 1 as claimed). *)
Theorem add_reads_register_zero :
  V carry_state !! 0%nat = Some 0xFF /\
  V carry_state !! 1%nat = Some 0x01 /\
  opcode carry_state = 0x8014 /\
  exists c',
    decode 0 carry_state = Returns tt c' [] /\
    V c' !! 0%nat = Some 0xFE /\ V c' !! 15%nat = Some 1.
Proof.
  do 3 (split; [ reflexivity | ]).
  eexists. split; [ vm_compute; reflexivity | ]. split; reflexivity.
Qed.

(** C5 (fails on the code).  The claim: [8xy5] sets VF to 1 when Vx >= Vy
    and to 0 otherwise, and Vx to (Vx - Vy) mod 256.  The code tests
    [Vx > 0xFF - Vy], the carry test of the addition: with V0 = 5, V1 = 3 the
    word 0x8015 gives V0 = 2 as claimed but VF = 0, although 5 >= 3. *)
Theorem sub_flag_is_the_carry_test :
  V borrow_state !! 0%nat = Some 5 /\
  V borrow_state !! 1%nat = Some 3 /\
  opcode borrow_state = 0x8015 /\
  exists c',
    decode 0 borrow_state = Returns tt c' [] /\
    V c' !! 0%nat = Some 2 /\ V c' !! 15%nat = Some 0.
Proof.
  do 3 (split; [ reflexivity | ]).
  eexists. split; [ vm_compute; reflexivity | ]. split; reflexivity.
Qed.

(** C6 (fails on the code).  The claim: CALL then RET brings pc back to the
    instruction after the CALL, for every pc the CALL was fetched from.  The
    code: a stack slot is one byte and CALL stores [byte(c.pc)].  From
    pc = 0x200, [CALL 0x300] stores 0x00; the RET decoded next leaves
    pc = 0x002, not 0x202 (and pc = 0x004 when each [decode] is followed by
    [execute], as in a cycle).  The stack pointer is back at 0. *)
Theorem call_return_truncates_pc :
  pc initial = 0x200 /\ sp initial = 0 /\
  (exists c1 c2,
     decode 0 (with_opcode 0x2300 initial) = Returns tt c1 [] /\
     pc c1 = 0x300 /\ sp c1 = 1 /\ stack c1 !! 0%nat = Some 0x00 /\
     decode 0 (with_opcode 0x00EE c1) = Returns tt c2 [] /\
     pc c2 = 0x002 /\ sp c2 = 0) /\
  (exists c2,
     exec_ops 0 [0x2300; 0x00EE] initial = Returns tt c2 [] /\
     pc c2 = 0x004 /\ sp c2 = 0).
Proof.
  do 2 (split; [ reflexivity | ]). split.
  - eexists _, _. split; [ vm_compute; reflexivity | ].
    do 3 (split; [ reflexivity | ]).
    split; [ vm_compute; reflexivity | ]. split; reflexivity.
  - eexists. split; [ vm_compute; reflexivity | ]. split; reflexivity.
Qed.

(** C7, the claim as stated fails.  After sixteen nested calls from the
    initialized machine the stack pointer is 16, and the seventeenth CALL
    does not return a failure to its caller: the index expression
    [c.stack[16]] panics (a run-time error). *)
Lemma seventeenth_call_counterexample :
  exists c16,
    exec_ops 0 (replicate 16 0x2300) initial = Returns tt c16 [] /\
    sp c16 = 16 /\
    exec_op 0 0x2300 c16 =
      Panics (IndexOutOfRange 16 16) (with_opcode 0x2300 c16) [].
Proof.
  eexists. split; [ vm_compute; reflexivity | ].
  split; [ reflexivity | vm_compute; reflexivity ].
Qed.

(** C7, amended.  From a machine with the stack pointer at 0, as
    [initialize] leaves it, sixteen nested CALLs all return and leave the
    stack pointer at 16; a seventeenth CALL then panics on the bounds check
    of [c.stack[c.sp]] (index 16 of 16) before anything is written: the
    panic finds the machine as the sixteenth call left it, the instruction
    word in [c.opcode] apart. *)
Theorem sixteen_calls_then_panic rnd c ops :
  wf c -> sp c = 0 -> length ops = 16%nat -> Forall is_call ops ->
  exists c16 out,
    exec_ops rnd ops c = Returns tt c16 out /\
    sp c16 = 16 /\
    forall op, is_call op ->
      exec_op rnd op c16 =
        Panics (IndexOutOfRange 16 16) (with_opcode op c16) [].
Proof.
  intros Hwf Hsp Hlen Hops.
  destruct (wf_lengths c Hwf) as (_ & _ & _ & Hst & _).
  destruct (exec_ops_calls rnd ops Hops c Hst) as (c16 & out & E & Hsp16 & Hst16);
    [ lia | lia | ].
  exists c16, out. split; [ exact E | ]. split; [ lia | ].
  intros op Hop. unfold exec_op. rewrite bind_modify.
  apply bind_Panics.
  replace 16 with (sp (with_opcode op c16)) at 1 by (simpl; lia).
  replace 16%nat with (length (stack (with_opcode op c16))) by (simpl; lia).
  apply decode_call_out_of_range; [ exact Hop | simpl; lia ].
Qed.

(** The amended C7 on the initialized machine with sixteen [CALL 0x300]. *)
Lemma sixteen_calls_then_panic_witness :
  wf initial /\ sp initial = 0 /\
  length (replicate 16 0x2300) = 16%nat /\
  Forall is_call (replicate 16 0x2300) /\
  exists c16 out,
    exec_ops 7 (replicate 16 0x2300) initial = Returns tt c16 out /\
    sp c16 = 16 /\
    forall op, is_call op ->
      exec_op 7 op c16 =
        Panics (IndexOutOfRange 16 16) (with_opcode op c16) [].
Proof.
  assert (Hwf : wf initial) by (vm_compute; reflexivity).
  assert (Hsp : sp initial = 0) by reflexivity.
  assert (Hlen : length (replicate 16 0x2300) = 16%nat) by reflexivity.
  assert (Hops : Forall is_call (replicate 16 0x2300)).
  { simpl. repeat constructor. }
  repeat (split; [ assumption | ]).
  apply (sixteen_calls_then_panic 7 initial (replicate 16 0x2300)
           Hwf Hsp Hlen Hops).
Defined.

(** C8 (fails on the code).  The claim: a nonzero sound timer goes down by
    one on every step, so from N > 0 it reaches 0 after N steps with one
    beep.  The code decrements inside the test [c.soundTimer == 1]: a sound
    timer of 2 is left at 2 by every step, however many, and no beep is
    ever logged. *)
Theorem sound_timer_two_never_moves :
  soundTimer humming = 2 /\
  forall n,
    decode_times 0 n humming = Returns tt humming [] /\
    soundTimer humming <> 0.
Proof.
  split; [ reflexivity | ].
  assert (E : decode 0 humming = Returns tt humming [])
    by (vm_compute; reflexivity).
  intros n. split; [ | discriminate ].
  induction n as [ | n IH ]; [ reflexivity | ].
  simpl decode_times. rewrite (bind_Returns_nil _ _ _ _ _ E). exact IH.
Qed.

(** C9 (fails on the code).  The claim: [Dxyn] XORs the sprite at I onto the
    display, sets VF to the collision flag and sets the redraw flag; drawn
    twice, a sprite gives VF = 0 and then VF = 1.  The code: the case of
    family D is empty.  Drawing the row 0xFF at (0,0) on a clear display
    returns the very state it started from: no pixel set, the redraw flag
    still false, and VF = 0 after the second draw as after the first. *)
Theorem draw_changes_nothing :
  opcode sprite_state = 0xD011 /\
  ir sprite_state = 0x300 /\
  memory sprite_state !! 768%nat = Some 0xFF /\
  gfx sprite_state = replicate 2048 0 /\
  drawFlag sprite_state = false /\
  V sprite_state !! 15%nat = Some 0 /\
  decode 0 sprite_state = Returns tt sprite_state [] /\
  decode_times 0 2 sprite_state = Returns tt sprite_state [].
Proof.
  do 6 (split; [ reflexivity | ]).
  assert (E : decode 0 sprite_state = Returns tt sprite_state [])
    by (vm_compute; reflexivity).
  split; [ exact E | ].
  simpl decode_times. do 2 rewrite (bind_Returns_nil _ _ _ _ _ E). reflexivity.
Qed.



(** * Beyond the claims

    Properties of the parts of [chip8.go] the claims leave out: [initialize]
    with its loops, [fetch] at the end of memory, a whole [EmulateCycle],
    the ways [decode] can end, and the instructions of the switch one by
    one. *)

(** ** Loops *)

(** A loop whose body returns quietly and carries [P] from one round to the
    next returns quietly and carries [P] from the first round to the last. *)
Lemma for_range_inv body :
  forall n (P : nat -> Chip8 -> Prop) i c,
    (forall k c1, (k < n)%nat -> P k c1 ->
       exists c2, body (i + Z.of_nat k) c1 = Returns tt c2 [] /\ P (S k) c2) ->
    P 0%nat c ->
    exists c', for_range n i body c = Returns tt c' [] /\ P n c'.
Proof.
  induction n as [ | n IH ]; intros P i c Hstep H0.
  - exists c. split; [ reflexivity | exact H0 ].
  - destruct (Hstep 0%nat c ltac:(lia) H0) as (c1 & E1 & H1).
    rewrite Z.add_0_r in E1.
    destruct (IH (fun k => P (S k)) (i + 1) c1) as (c' & E' & H').
    + intros k c2 Hk Hc2.
      destruct (Hstep (S k) c2 ltac:(lia) Hc2) as (c3 & E3 & H3).
      exists c3. split; [ | exact H3 ].
      rewrite <- E3. f_equal. lia.
    + exact H1.
    + exists c'. split; [ | exact H' ].
      simpl for_range. rewrite (bind_Returns_nil _ _ _ _ _ E1). exact E'.
Qed.

(** Overwriting position [k] of an array whose first [k] places are already
    written. *)
Lemma insert_next (a pre : list Z) (k : nat) (v : Z) :
  length pre = k -> (k < length a)%nat ->
  <[k := v]> (pre ++ drop k a) = (pre ++ [v]) ++ drop (S k) a.
Proof.
  intros Hpre Hk.
  destruct (lookup_lt_is_Some_2 a k Hk) as [x Hx].
  rewrite (drop_S a x k Hx).
  rewrite <- Hpre at 1.
  rewrite (insert_app_r_alt pre (x :: drop (S k) a) (length pre) v) by lia.
  rewrite Nat.sub_diag. simpl. rewrite <- app_assoc. reflexivity.
Qed.

Lemma replicate_snoc (k : nat) (v : Z) : replicate k v ++ [v] = replicate (S k) v.
Proof. induction k as [ | k IH ]; simpl; [ reflexivity | rewrite IH; reflexivity ]. Qed.

Lemma stGfx_ok c i v :
  (Z.to_nat i < length (gfx c))%nat ->
  stGfx i v c = Returns tt (with_gfx (<[Z.to_nat i := v]> (gfx c)) c) [].
Proof.
  intros H. unfold stGfx. rewrite bind_get.
  rewrite (bind_Returns_nil _ _ _ _ _ (assign_ok (gfx c) i v c H)). reflexivity.
Qed.

Lemma stKey_ok c i v :
  (Z.to_nat i < length (key c))%nat ->
  stKey i v c = Returns tt (with_key (<[Z.to_nat i := v]> (key c)) c) [].
Proof.
  intros H. unfold stKey. rewrite bind_get.
  rewrite (bind_Returns_nil _ _ _ _ _ (assign_ok (key c) i v c H)). reflexivity.
Qed.

Lemma stMemory_ok c i v :
  (Z.to_nat i < length (memory c))%nat ->
  stMemory i v c = Returns tt (with_memory (<[Z.to_nat i := v]> (memory c)) c) [].
Proof.
  intros H. unfold stMemory. rewrite bind_get.
  rewrite (bind_Returns_nil _ _ _ _ _ (assign_ok (memory c) i v c H)). reflexivity.
Qed.

Lemma stV_ok c i v :
  (Z.to_nat i < length (V c))%nat ->
  stV i v c = Returns tt (with_V (<[Z.to_nat i := v]> (V c)) c) [].
Proof.
  intros H. unfold stV. rewrite bind_get.
  rewrite (bind_Returns_nil _ _ _ _ _ (assign_ok (V c) i v c H)). reflexivity.
Qed.

(** A loop that writes [f 0], [f 1], ... to the first [n] places of one
    array field, given as its projection [getf], its update [setf] and its
    store statement [st]. *)
Lemma fill_loop (getf : Chip8 -> list Z) (setf : list Z -> Chip8 -> Chip8)
    (st : Z -> Z -> M unit) (f : nat -> Z) body n c :
  (forall c1 i v, (Z.to_nat i < length (getf c1))%nat ->
     st i v c1 = Returns tt (setf (<[Z.to_nat i := v]> (getf c1)) c1) []) ->
  (forall a c1, getf (setf a c1) = a) ->
  (forall a b c1, setf a (setf b c1) = setf a c1) ->
  (forall c1, setf (getf c1) c1 = c1) ->
  (forall k c1, (k < n)%nat -> body (Z.of_nat k) c1 = st (Z.of_nat k) (f k) c1) ->
  (n <= length (getf c))%nat ->
  for_range n 0 body c =
    Returns tt (setf ((f <$> seq 0 n) ++ drop n (getf c)) c) [].
Proof.
  intros Hst Hgs Hss Hsg Hbody Hn.
  destruct (for_range_inv body n
              (fun k c1 => c1 = setf ((f <$> seq 0 k) ++ drop k (getf c)) c)
              0 c) as (c' & E & ->).
  - intros k c1 Hk ->. eexists. split.
    + rewrite Z.add_0_l, Hbody by exact Hk. rewrite Hst.
      * reflexivity.
      * rewrite Hgs, length_app, length_fmap, length_seq, length_drop. lia.
    + rewrite Hgs, Hss, Nat2Z.id.
      rewrite insert_next by (rewrite ?length_fmap, ?length_seq; lia).
      rewrite seq_S, fmap_app. reflexivity.
  - simpl. rewrite drop_0. symmetry. apply Hsg.
  - exact E.
Qed.

Lemma fmap_const_seq (v : Z) n : ((fun _ => v) <$> seq 0 n) = replicate n v.
Proof.
  generalize 0%nat. induction n as [ | n IH ]; intros s; simpl;
    [ reflexivity | rewrite IH; reflexivity ].
Qed.

(** [for i := 0; i < GFX_SIZE; i++ { c.gfx[i] = 0 }] *)
Lemma clear_gfx_loop c :
  length (gfx c) = 2048%nat ->
  for_upto GFX_SIZE (fun i => stGfx i 0) c =
    Returns tt (with_gfx (replicate 2048 0) c) [].
Proof.
  intros Hlen. unfold for_upto. change (Z.to_nat GFX_SIZE) with 2048%nat.
  rewrite (fill_loop gfx with_gfx stGfx (fun _ => 0));
    try reflexivity; try (intros; apply stGfx_ok; assumption);
    try (intros; destruct c1; reflexivity); [ | lia ].
  rewrite fmap_const_seq, drop_ge by lia. rewrite app_nil_r. reflexivity.
Qed.

Lemma clear_stack_loop c :
  length (stack c) = 16%nat ->
  for_upto TWO_BYTES_SIZE (fun i => stStack i 0) c =
    Returns tt (with_stack (replicate 16 0) c) [].
Proof.
  intros Hlen. unfold for_upto. change (Z.to_nat TWO_BYTES_SIZE) with 16%nat.
  rewrite (fill_loop stack with_stack stStack (fun _ => 0));
    try reflexivity; try (intros; apply stStack_ok; assumption);
    try (intros; destruct c1; reflexivity); [ | lia ].
  rewrite fmap_const_seq, drop_ge by lia. rewrite app_nil_r. reflexivity.
Qed.

Lemma clear_memory_loop c :
  length (memory c) = 4096%nat ->
  for_upto MEMORY_SIZE (fun i => stMemory i 0) c =
    Returns tt (with_memory (replicate 4096 0) c) [].
Proof.
  intros Hlen. unfold for_upto. change (Z.to_nat MEMORY_SIZE) with 4096%nat.
  rewrite (fill_loop memory with_memory stMemory (fun _ => 0));
    try reflexivity; try (intros; apply stMemory_ok; assumption);
    try (intros; destruct c1; reflexivity); [ | lia ].
  rewrite fmap_const_seq, drop_ge by lia. rewrite app_nil_r. reflexivity.
Qed.

(** [for i := 0; i < FONTSET_SIZE; i++ { c.memory[i] = getChip8Fontset()[i] }] *)
Lemma load_fontset_loop c :
  length (memory c) = 4096%nat ->
  for_upto FONTSET_SIZE (fun i => b ← index getChip8Fontset i; stMemory i b) c =
    Returns tt (with_memory (getChip8Fontset ++ drop 80 (memory c)) c) [].
Proof.
  intros Hlen. unfold for_upto. change (Z.to_nat FONTSET_SIZE) with 80%nat.
  rewrite (fill_loop memory with_memory stMemory
             (fun k => default 0 (getChip8Fontset !! k)));
    try reflexivity; try (intros; apply stMemory_ok; assumption);
    try (intros; destruct c1; reflexivity); [ | lia ].
  intros k c1 Hk.
  destruct (index_ok getChip8Fontset (Z.of_nat k)) as (v & Hv & E);
    [ simpl; lia | ].
  rewrite (bind_Returns_nil _ _ _ _ _ (E c1)).
  rewrite Nat2Z.id in Hv. rewrite Hv. reflexivity.
Qed.

(** [for i := 0; i < TWO_BYTES_SIZE; i++ { c.key[i] = 0; c.V[i] = 0 }] *)
Lemma clear_key_V_loop c :
  length (key c) = 16%nat -> length (V c) = 16%nat ->
  for_upto TWO_BYTES_SIZE (fun i => stKey i 0 ;; stV i 0) c =
    Returns tt (with_V (replicate 16 0) (with_key (replicate 16 0) c)) [].
Proof.
  intros Hk HV. unfold for_upto. change (Z.to_nat TWO_BYTES_SIZE) with 16%nat.
  destruct (for_range_inv (fun i => stKey i 0 ;; stV i 0) 16
              (fun k c1 =>
                 c1 = with_V (replicate k 0 ++ drop k (V c))
                        (with_key (replicate k 0 ++ drop k (key c)) c))
              0 c) as (c' & E & ->).
  - intros k c1 Hlt ->. eexists. split.
    + rewrite Z.add_0_l.
      erewrite bind_Returns_nil;
        [ | apply stKey_ok; simpl;
            rewrite length_app, length_replicate, length_drop; lia ].
      rewrite stV_ok
        by (simpl; rewrite length_app, length_replicate, length_drop; lia).
      reflexivity.
    + simpl. rewrite Nat2Z.id.
      rewrite !insert_next by (rewrite ?length_replicate; lia).
      rewrite replicate_snoc. reflexivity.
  - simpl. rewrite !drop_0. destruct c; reflexivity.
  - rewrite E. rewrite !drop_ge by lia. rewrite !app_nil_r. reflexivity.
Qed.

Lemma initialize_eq c :
  length (V c) = 16%nat -> length (memory c) = 4096%nat ->
  length (gfx c) = 2048%nat -> length (stack c) = 16%nat ->
  length (key c) = 16%nat ->
  initialize c = Returns tt reset_state [].
Proof.
  intros HV Hm Hg Hs Hk. unfold initialize.
  rewrite !bind_modify.
  erewrite bind_Returns_nil; [ | apply clear_gfx_loop; exact Hg ].
  erewrite bind_Returns_nil; [ | apply clear_stack_loop; exact Hs ].
  erewrite bind_Returns_nil; [ | apply clear_key_V_loop; [ exact Hk | exact HV ] ].
  erewrite bind_Returns_nil; [ | apply clear_memory_loop; exact Hm ].
  erewrite bind_Returns_nil;
    [ | apply load_fontset_loop; apply (length_replicate 4096 0) ].
  rewrite !bind_modify. reflexivity.
Qed.

(** ** Registers and operand fields *)

Lemma reg_lookup c i :
  length (V c) = 16%nat -> (i < 16)%nat -> V c !! i = Some (reg c i).
Proof.
  intros Hl Hi. unfold reg.
  destruct (lookup_lt_is_Some_2 (V c) i ltac:(lia)) as [v ->]. reflexivity.
Qed.

Lemma xreg_lt op : (xreg op < 16)%nat.
Proof. unfold xreg. pose proof (vXPos_bounds op). lia. Qed.

Lemma yreg_lt op : (yreg op < 16)%nat.
Proof. unfold yreg. pose proof (vYPos_bounds op). lia. Qed.

Lemma kk_bounds op : 0 <= kk op < 256.
Proof.
  unfold kk. change 0x00FF with (Z.ones 8). rewrite Z.land_ones by lia.
  apply Z.mod_pos_bound. lia.
Qed.

Lemma nnn_bounds op : 0 <= nnn op < 4096.
Proof.
  unfold nnn. change 0x0FFF with (Z.ones 12). rewrite Z.land_ones by lia.
  apply Z.mod_pos_bound. lia.
Qed.

Lemma byte_kk op : byte (Z.land op 0x00FF) = kk op.
Proof. apply Z.mod_small, kk_bounds. Qed.

Lemma uint16_nnn op : uint16 (Z.land op 0x0FFF) = nnn op.
Proof. apply Z.mod_small. pose proof (nnn_bounds op). unfold nnn in *. lia. Qed.

Lemma reg_bounds c i : wf c -> 0 <= reg c i < 256.
Proof.
  intros H. unfold reg. destruct (V c !! i) as [v | ] eqn:E; simpl; [ | lia ].
  apply wf_shaped in H. destruct H as [HV _ _ _ _ _ _ _ _ _ _].
  apply is_byte_iff. exact (is_array_lookup 16 (V c) i v HV E).
Qed.

Lemma uint16_twice p : uint16 (uint16 (p + 2) + 2) = uint16 (p + 4).
Proof. rewrite uint16_add_l. f_equal. lia. Qed.

Lemma bind_incrementProgramCounter {A} (k : unit -> M A) c :
  bind incrementProgramCounter k c = k tt (with_pc (uint16 (pc c + 2)) c).
Proof. apply bind_Returns_nil, incrementProgramCounter_eq. Qed.

Ltac rd_solve :=
  simpl; rewrite ?list_lookup_insert_ne by (simpl; congruence);
  first [ eassumption | apply reg_lookup; [ assumption | first [ apply xreg_lt | apply yreg_lt | lia ] ] ].

Ltac st_solve :=
  simpl; rewrite ?length_insert;
  match goal with
  | H : length (V _) = 16%nat |- _ => rewrite H
  end;
  first [ apply xreg_lt | simpl; lia
        | match goal with |- (Z.to_nat ?i < 16)%nat =>
            let B := fresh in
            first [ pose proof (vXPos_bounds (opcode _)) as B
                  | idtac ]; lia end ].

Ltac run :=
  repeat first
    [ rewrite bind_assoc
    | rewrite bind_get
    | rewrite bind_modify
    | rewrite bind_ret
    | rewrite bind_incrementProgramCounter
    | rewrite incrementProgramCounter_eq
    | erewrite bind_rdV by rd_solve
    | rewrite bind_stV by st_solve ].

Section Semantics.

Variable rnd : Z.
Variable c : Chip8.
Hypothesis Hlen : length (V c) = 16%nat.

Ltac enter Hf :=
  unfold decode_switch; rewrite bind_get; cbv zeta; rewrite Hf; cbv iota.

Ltac rdx := erewrite bind_rdV by (apply reg_lookup; [ exact Hlen | apply xreg_lt ]).
Ltac rdy := erewrite bind_rdV by (apply reg_lookup; [ exact Hlen | apply yreg_lt ]).

Lemma switch_se_byte :
  Z.land (opcode c) 0xF000 = 0x3000 ->
  decode_switch rnd c =
    Returns tt
      (with_pc (uint16 (pc c + if reg c (xreg (opcode c)) =? kk (opcode c)
                               then 4 else 2)) c) [].
Proof.
  intros Hf. enter Hf. rdx. rewrite byte_kk.
  fold (xreg (opcode c)).
  destruct (_ =? _); unfold when; run.
  - cbn [pc with_pc]. rewrite uint16_twice. reflexivity.
  - reflexivity.
Qed.

Lemma switch_sne_byte :
  Z.land (opcode c) 0xF000 = 0x4000 ->
  decode_switch rnd c =
    Returns tt
      (with_pc (uint16 (pc c + if reg c (xreg (opcode c)) =? kk (opcode c)
                               then 2 else 4)) c) [].
Proof.
  intros Hf. enter Hf. rdx. rewrite byte_kk.
  fold (xreg (opcode c)).
  destruct (_ =? _); unfold when, negb; run.
  - reflexivity.
  - cbn [pc with_pc]. rewrite uint16_twice. reflexivity.
Qed.

Lemma switch_se_reg :
  Z.land (opcode c) 0xF000 = 0x5000 ->
  decode_switch rnd c =
    Returns tt
      (with_pc (uint16 (pc c + if reg c (xreg (opcode c)) =? reg c (yreg (opcode c))
                               then 4 else 2)) c) [].
Proof.
  intros Hf. enter Hf. rdx. rdy.
  fold (xreg (opcode c)) (yreg (opcode c)).
  destruct (_ =? _); unfold when; run.
  - cbn [pc with_pc]. rewrite uint16_twice. reflexivity.
  - reflexivity.
Qed.

Lemma switch_sne_reg :
  Z.land (opcode c) 0xF000 = 0x9000 ->
  decode_switch rnd c =
    Returns tt
      (with_pc (uint16 (pc c + if reg c (xreg (opcode c)) =? reg c (yreg (opcode c))
                               then 2 else 4)) c) [].
Proof.
  intros Hf. enter Hf. rewrite bind_assoc. rdx. rewrite bind_assoc. rdy.
  fold (xreg (opcode c)) (yreg (opcode c)).
  destruct (_ =? _); unfold when, negb; run.
  - reflexivity.
  - cbn [pc with_pc]. rewrite uint16_twice. reflexivity.
Qed.

Ltac enter8 Hf Hs :=
  unfold decode_switch; rewrite bind_get; cbv zeta; rewrite Hf; cbv iota;
  rewrite Hs; cbv iota.

Ltac stx :=
  rewrite bind_stV
    by (cbn [V with_V]; rewrite ?length_insert, Hlen; apply xreg_lt).

(** 8xy0 .. 8xy3 *)
Lemma switch_bitwise (f : Z -> Z -> Z) n :
  Z.land (opcode c) 0xF000 = 0x8000 -> Z.land (opcode c) 0x000F = n ->
  (n = 0 /\ f = (fun _ b => b)) \/ (n = 1 /\ f = Z.lor) \/
  (n = 2 /\ f = Z.land) \/ (n = 3 /\ f = Z.lxor) ->
  decode_switch rnd c =
    Returns tt
      (with_pc (uint16 (pc c + 2))
         (with_V (<[xreg (opcode c) :=
                     f (reg c (xreg (opcode c))) (reg c (yreg (opcode c)))]> (V c))
                 c)) [].
Proof.
  intros Hf Hs [[-> ->] | [[-> ->] | [[-> ->] | [-> ->]]]]; enter8 Hf Hs;
    rewrite !bind_assoc; try rdx; rewrite ?bind_assoc; rdy; stx;
    rewrite incrementProgramCounter_eq; reflexivity.
Qed.

(** 7xkk *)
Lemma switch_add_byte :
  Z.land (opcode c) 0xF000 = 0x7000 ->
  decode_switch rnd c =
    Returns tt
      (with_pc (uint16 (pc c + 2))
         (with_V (<[xreg (opcode c) :=
                     byte (reg c (xreg (opcode c)) + kk (opcode c))]> (V c))
                 c)) [].
Proof.
  intros Hf. enter Hf. rewrite bind_assoc. rdx. stx. rewrite byte_kk.
  rewrite incrementProgramCounter_eq. reflexivity.
Qed.

(** The three flag-setting instructions below write VF first; with x and y
    other than F the operands are read unchanged. *)
Hypothesis Hx : xreg (opcode c) <> 15%nat.

Ltac flag0 :=
  rewrite bind_stV by (rewrite Hlen; simpl; lia);
  change (Z.to_nat 15) with 15%nat.

Ltac rdx' :=
  erewrite bind_rdV
    by (cbn [V with_V]; rewrite !list_lookup_insert_ne by exact (not_eq_sym Hx);
        apply reg_lookup; [ exact Hlen | apply xreg_lt ]).
Ltac flag1 :=
  rewrite bind_stV by (cbn [V with_V]; rewrite length_insert, Hlen; simpl; lia);
  change (Z.to_nat 15) with 15%nat.

Ltac finish_flag :=
  rewrite !bind_assoc; rdx'; rewrite ?bind_assoc; stx;
  rewrite incrementProgramCounter_eq; cbn [V with_V];
  rewrite ?list_insert_insert_eq; reflexivity.

(** 8xy6 *)
Lemma switch_shr :
  Z.land (opcode c) 0xF000 = 0x8000 -> Z.land (opcode c) 0x000F = 0x6 ->
  decode_switch rnd c =
    Returns tt
      (with_pc (uint16 (pc c + 2))
         (with_V (<[xreg (opcode c) := Z.shiftr (reg c (xreg (opcode c))) 1]>
                    (<[15%nat := if Z.land (reg c (xreg (opcode c))) 1 =? 1
                                 then 1 else 0]> (V c)))
                 c)) [].
Proof.
  intros Hf Hs. enter8 Hf Hs. flag0. rewrite !bind_assoc. rdx'.
  destruct (_ =? _); unfold when.
  - flag1. finish_flag.
  - rewrite bind_ret. finish_flag.
Qed.

Hypothesis Hy : yreg (opcode c) <> 15%nat.

Ltac rdy' :=
  erewrite bind_rdV
    by (cbn [V with_V]; rewrite !list_lookup_insert_ne by exact (not_eq_sym Hy);
        apply reg_lookup; [ exact Hlen | apply yreg_lt ]).

(** 8xy7 *)
Lemma switch_subn :
  Z.land (opcode c) 0xF000 = 0x8000 -> Z.land (opcode c) 0x000F = 0x7 ->
  decode_switch rnd c =
    Returns tt
      (with_pc (uint16 (pc c + 2))
         (with_V (<[xreg (opcode c) :=
                     byte (reg c (yreg (opcode c)) - reg c (xreg (opcode c)))]>
                    (<[15%nat := if reg c (yreg (opcode c)) >? reg c (xreg (opcode c))
                                 then 1 else 0]> (V c)))
                 c)) [].
Proof.
  intros Hf Hs. enter8 Hf Hs. flag0. rewrite !bind_assoc. rdy'.
  rewrite bind_assoc. rdx'.
  destruct (_ >? _); unfold when.
  - flag1. rewrite !bind_assoc. rdy'. rewrite bind_assoc. rdx'. stx.
    rewrite incrementProgramCounter_eq. cbn [V with_V].
    rewrite ?list_insert_insert_eq. reflexivity.
  - rewrite bind_ret. rewrite !bind_assoc. rdy'. rewrite bind_assoc. rdx'. stx.
    rewrite incrementProgramCounter_eq. reflexivity.
Qed.

(** 8xyE *)
Lemma switch_shl :
  Z.land (opcode c) 0xF000 = 0x8000 -> Z.land (opcode c) 0x000F = 0xE ->
  decode_switch rnd c =
    Returns tt
      (with_pc (uint16 (pc c + 2))
         (with_V (<[xreg (opcode c) := byte (Z.shiftl (reg c (xreg (opcode c))) 1)]>
                    (<[15%nat := if Z.shiftr (reg c (yreg (opcode c))) 7 =? 1
                                 then 1 else 0]> (V c)))
                 c)) [].
Proof.
  intros Hf Hs. enter8 Hf Hs. flag0. rewrite !bind_assoc. rdy'.
  destruct (_ =? _); unfold when.
  - flag1. finish_flag.
  - rewrite bind_ret. finish_flag.
Qed.

End Semantics.

Section Control.

Variable rnd : Z.
Variable c : Chip8.

Ltac enter Hf :=
  unfold decode_switch; rewrite bind_get; cbv zeta; rewrite Hf; cbv iota.

(** 1nnn *)
Lemma switch_jp :
  Z.land (opcode c) 0xF000 = 0x1000 ->
  decode_switch rnd c = Returns tt (with_pc (nnn (opcode c)) c) [].
Proof. intros Hf. enter Hf. rewrite uint16_nnn. reflexivity. Qed.

(** Annn *)
Lemma switch_ld_i :
  Z.land (opcode c) 0xF000 = 0xA000 ->
  decode_switch rnd c =
    Returns tt (with_pc (uint16 (pc c + 2)) (with_ir (nnn (opcode c)) c)) [].
Proof.
  intros Hf. enter Hf. rewrite uint16_nnn, bind_modify.
  rewrite incrementProgramCounter_eq. reflexivity.
Qed.

(** Bnnn *)
Lemma switch_jp_v0 :
  wf c -> Z.land (opcode c) 0xF000 = 0xB000 ->
  decode_switch rnd c =
    Returns tt (with_pc (nnn (opcode c) + reg c 0) c) [].
Proof.
  intros Hwf Hf. enter Hf.
  erewrite bind_rdV by (apply reg_lookup; [ apply (wf_lengths c Hwf) | lia ]).
  rewrite uint16_nnn. unfold modify.
  pose proof (nnn_bounds (opcode c)). pose proof (reg_bounds c 0 Hwf).
  unfold uint16 at 2. rewrite (Z.mod_small (reg c 0)) by lia.
  unfold uint16. rewrite Z.mod_small by lia. reflexivity.
Qed.

(** Cxkk *)
Lemma switch_rnd :
  length (V c) = 16%nat -> 0 <= rnd < 255 ->
  Z.land (opcode c) 0xF000 = 0xC000 ->
  decode_switch rnd c =
    Returns tt
      (with_pc (uint16 (pc c + 2))
         (with_V (<[xreg (opcode c) := Z.land rnd (kk (opcode c))]> (V c)) c)) [].
Proof.
  intros Hlen Hr Hf. enter Hf.
  rewrite bind_stV by (rewrite Hlen; apply xreg_lt).
  rewrite incrementProgramCounter_eq.
  rewrite Z.rem_small by lia.
  assert (E : byte (Z.land rnd (Z.land (opcode c) 255)) = Z.land rnd (kk (opcode c))).
  { apply Z.mod_small. fold (kk (opcode c)). pose proof (kk_bounds (opcode c)).
    apply is_byte_iff, is_byte_land; apply is_byte_iff; lia. }
  rewrite E. reflexivity.
Qed.

(** 00E0, as the switch reads it: family 0 with low nibble 0. *)
Lemma switch_cls :
  length (gfx c) = 2048%nat ->
  Z.land (opcode c) 0xF000 = 0x0000 -> Z.land (opcode c) 0x000F = 0x0 ->
  decode_switch rnd c =
    Returns tt (with_pc (uint16 (pc c + 2)) (with_gfx (replicate 2048 0) c)) [].
Proof.
  intros Hg Hf Hs. enter Hf. rewrite Hs. cbv iota.
  rewrite (bind_Returns_nil _ _ _ _ _ (clear_gfx_loop c Hg)).
  rewrite incrementProgramCounter_eq. reflexivity.
Qed.

(** Families D, E and F: every case is empty. *)
Lemma switch_unimplemented :
  In (Z.land (opcode c) 0xF000) [0xD000; 0xE000; 0xF000] ->
  decode_switch rnd c = Returns tt c [].
Proof.
  intros [Hf | [Hf | [Hf | []]]]; unfold decode_switch; rewrite bind_get;
    cbv zeta; rewrite <- Hf; cbv iota; try reflexivity;
    repeat match goal with
           | |- context [match ?z with _ => _ end] => destruct z
           end; reflexivity.
Qed.

(** 00EE with nothing on the stack: the stack pointer is decremented first
    and wraps to 65535, then the read of the slot fails. *)
Lemma switch_ret_underflow :
  is_ret (opcode c) -> sp c = 0 -> length (stack c) = 16%nat ->
  decode_switch rnd c = Panics (IndexOutOfRange 65535 16) (with_sp 65535 c) [].
Proof.
  intros [Hf Hs] Hsp Hlen. enter Hf. rewrite Hs. cbv iota.
  rewrite bind_assoc, bind_get, bind_modify. rewrite Hsp.
  apply bind_Panics. rewrite bind_get. apply bind_Panics.
  unfold rdStack. rewrite bind_get. cbn [sp stack with_sp].
  change (uint16 (0 - 1)) with 65535. rewrite <- Hlen.
  apply index_out. rewrite Hlen. simpl. lia.
Qed.

End Control.

(** ** The sixteen families *)

Lemma family_multiple op :
  exists k, 0 <= k < 16 /\ Z.land op 0xF000 = 4096 * k.
Proof.
  exists (Z.shiftr (Z.land op 0xF000) 12). split.
  - apply (nibble_bounds op 12). lia.
  - assert (Hlow : Z.land op 0xF000 mod 2 ^ 12 = 0).
    { rewrite <- Z.land_ones by lia. rewrite <- Z.land_assoc. apply Z.land_0_r. }
    rewrite Z.shiftr_div_pow2 by lia.
    pose proof (Z.div_mod (Z.land op 0xF000) (2 ^ 12) ltac:(lia)) as E.
    change (2 ^ 12) with 4096 in *. lia.
Qed.

Lemma family_cases op :
  In (Z.land op 0xF000)
     [0x0000; 0x1000; 0x2000; 0x3000; 0x4000; 0x5000; 0x6000; 0x7000;
      0x8000; 0x9000; 0xA000; 0xB000; 0xC000; 0xD000; 0xE000; 0xF000].
Proof.
  destruct (family_multiple op) as (k & Hk & ->).
  assert (H : k = 0 \/ k = 1 \/ k = 2 \/ k = 3 \/ k = 4 \/ k = 5 \/ k = 6 \/
              k = 7 \/ k = 8 \/ k = 9 \/ k = 10 \/ k = 11 \/ k = 12 \/
              k = 13 \/ k = 14 \/ k = 15) by lia.
  simpl. repeat (destruct H as [-> | H]; [ tauto | ]). subst. tauto.
Qed.

Lemma low_nibble_cases op :
  In (Z.land op 0x000F) [0; 1; 2; 3; 4; 5; 6; 7; 8; 9; 10; 11; 12; 13; 14; 15].
Proof.
  pose proof (low_nibble_bounds op) as Hk. revert Hk.
  generalize (Z.land op 15). intros k Hk.
  assert (H : k = 0 \/ k = 1 \/ k = 2 \/ k = 3 \/ k = 4 \/ k = 5 \/ k = 6 \/
              k = 7 \/ k = 8 \/ k = 9 \/ k = 10 \/ k = 11 \/ k = 12 \/
              k = 13 \/ k = 14 \/ k = 15) by lia.
  simpl. repeat (destruct H as [-> | H]; [ tauto | ]). subst. tauto.
Qed.

(** ** How a call of [decode] can end *)

Section Outcome.

Variable rnd : Z.
Variable c : Chip8.
Hypothesis Hwf : wf c.

Ltac enter Hf :=
  unfold decode_switch; rewrite bind_get; cbv zeta; rewrite Hf; cbv iota.

Lemma switch_call_out :
  is_call (opcode c) -> 16 <= sp c ->
  decode_switch rnd c = Panics (IndexOutOfRange (sp c) 16) c [].
Proof.
  intros Hf Hsp. destruct (wf_lengths c Hwf) as (_ & _ & _ & Hst & _).
  enter Hf. apply bind_Panics. rewrite bind_get. rewrite <- Hst.
  apply stStack_out. lia.
Qed.

Lemma switch_ret_out :
  is_ret (opcode c) -> ~ 1 <= sp c <= 16 ->
  decode_switch rnd c =
    Panics (IndexOutOfRange (uint16 (sp c - 1)) 16)
           (with_sp (uint16 (sp c - 1)) c) [].
Proof.
  intros [Hf Hs] Hsp. destruct (wf_lengths c Hwf) as (_ & _ & _ & Hst & _).
  apply wf_shaped in Hwf. destruct Hwf as [_ _ _ Hspw _ _ _ _ _ _ _].
  apply is_uint16_iff in Hspw.
  enter Hf. rewrite Hs. cbv iota.
  rewrite bind_assoc, bind_get, bind_modify.
  apply bind_Panics. rewrite bind_get. apply bind_Panics.
  unfold rdStack. rewrite bind_get. cbn [sp stack with_sp].
  rewrite <- Hst. apply index_out. rewrite Hst.
  assert (16 <= uint16 (sp c - 1)); [ | lia ].
  unfold uint16. destruct (Z.eq_dec (sp c) 0) as [E | E].
  - rewrite E. change ((0 - 1) mod 65536) with 65535. lia.
  - rewrite Z.mod_small by lia. lia.
Qed.

Lemma switch_ret_in :
  is_ret (opcode c) -> 1 <= sp c <= 16 ->
  decode_switch rnd c =
    Returns tt
      (with_pc (default 0 (stack c !! Z.to_nat (sp c - 1)) + 2)
         (with_sp (sp c - 1) c)) [].
Proof.
  intros Hr Hsp. destruct (wf_lengths c Hwf) as (_ & _ & _ & Hst & _).
  assert (Eu : uint16 (sp c - 1) = sp c - 1) by (apply Z.mod_small; lia).
  destruct (lookup_lt_is_Some_2 (stack c) (Z.to_nat (sp c - 1)) ltac:(lia))
    as [s Hs].
  rewrite (decode_switch_ret rnd c s Hr) by (rewrite Eu; exact Hs).
  rewrite Eu, Hs. simpl default.
  apply wf_shaped in Hwf. destruct Hwf as [_ _ _ _ _ _ _ _ _ Hsk _].
  pose proof (proj1 (is_byte_iff s) (is_array_lookup 16 _ _ _ Hsk Hs)).
  unfold uint16. rewrite (Z.mod_small s) by lia. rewrite Z.mod_small by lia.
  reflexivity.
Qed.

Lemma switch_rnd_any :
  Z.land (opcode c) 0xF000 = 0xC000 ->
  exists c', decode_switch rnd c = Returns tt c' [].
Proof.
  intros Hf. destruct (wf_lengths c Hwf) as (HV & _).
  enter Hf. rewrite bind_stV by (rewrite HV; apply xreg_lt).
  rewrite incrementProgramCounter_eq. eexists. reflexivity.
Qed.

Lemma switch_register_only :
  register_only (opcode c) -> exists c', decode_switch rnd c = Returns tt c' [].
Proof.
  intros H.
  destruct (keeps_decode_switch rnd c H (wf_Vlen c Hwf)) as ([] & c' & o & E & _).
  pose proof (silent_decode_switch rnd c) as S. rewrite E in S.
  destruct S as [_ ->]. exists c'. exact E.
Qed.

Lemma decode_switch_outcome :
  (exists c', decode_switch rnd c = Returns tt c' []) \/
  (unknown_to_switch (opcode c) /\
   decode_switch rnd c = Panics (UnknownOpcode0 (opcode c)) c []) \/
  (unknown_to_switch (opcode c) /\
   decode_switch rnd c = Panics (UnknownCode8 (opcode c)) c []) \/
  (is_call (opcode c) /\ 16 <= sp c /\
   decode_switch rnd c = Panics (IndexOutOfRange (sp c) 16) c []) \/
  (is_ret (opcode c) /\ ~ 1 <= sp c <= 16 /\
   decode_switch rnd c =
     Panics (IndexOutOfRange (uint16 (sp c - 1)) 16)
            (with_sp (uint16 (sp c - 1)) c) []).
Proof.
  destruct (wf_lengths c Hwf) as (HV & Hm & Hg & Hst & Hk).
  pose proof (family_cases (opcode c)) as Hfam. simpl in Hfam.
  pose proof (low_nibble_cases (opcode c)) as Hnib. simpl in Hnib.
  assert (Hreg : forall f, In f [0x3000; 0x4000; 0x5000; 0x6000; 0x7000; 0x9000] ->
                 f = Z.land (opcode c) 0xF000 ->
                 exists c', decode_switch rnd c = Returns tt c' []).
  { intros f Hin ->. apply switch_register_only. left. exact Hin. }
  destruct Hfam as [Hf | [Hf | [Hf | [Hf | [Hf | [Hf | [Hf | [Hf | [Hf | [Hf |
                   [Hf | [Hf | [Hf | [Hf | [Hf | [Hf | []]]]]]]]]]]]]]]]];
    symmetry in Hf;
    try (left; apply (fun H => Hreg _ H (eq_sym Hf)); simpl; tauto).
  - (* family 0 *)
    destruct (Z.eq_dec (Z.land (opcode c) 15) 0) as [E0 | N0].
    { left. eexists. apply switch_cls; assumption. }
    destruct (Z.eq_dec (Z.land (opcode c) 15) 14) as [EE | NE].
    { assert (Hr : is_ret (opcode c)) by (split; assumption).
      destruct (Z_le_dec 1 (sp c)) as [H1 | H1];
        [ destruct (Z_le_dec (sp c) 16) as [H2 | H2] | ].
      - left. eexists. apply switch_ret_in; [ exact Hr | lia ].
      - do 4 right. split; [ exact Hr | ]. split; [ lia | ].
        apply switch_ret_out; [ exact Hr | lia ].
      - do 4 right. split; [ exact Hr | ]. split; [ lia | ].
        apply switch_ret_out; [ exact Hr | lia ]. }
    right. left. split.
    + left. repeat split; assumption.
    + apply decode_switch_unknown0; assumption.
  - (* 1nnn *) left. eexists. apply switch_jp, Hf.
  - (* 2nnn *)
    destruct (Z_lt_dec (sp c) 16) as [Hlt | Hge].
    + left. eexists. apply decode_switch_call; [ exact Hf | ].
      apply wf_shaped in Hwf. destruct Hwf as [_ _ _ Hspw _ _ _ _ _ _ _].
      apply is_uint16_iff in Hspw. lia.
    + do 3 right. left. split; [ exact Hf | ]. split; [ lia | ].
      apply switch_call_out; [ exact Hf | lia ].
  - (* family 8 *)
    destruct (Z_le_dec (Z.land (opcode c) 15) 7) as [H7 | H7].
    { left. apply switch_register_only. right. split; [ exact Hf | ].
      pose proof (low_nibble_bounds (opcode c)) as Hb.
      assert (H : Z.land (opcode c) 15 = 0 \/ Z.land (opcode c) 15 = 1 \/
                  Z.land (opcode c) 15 = 2 \/ Z.land (opcode c) 15 = 3 \/
                  Z.land (opcode c) 15 = 4 \/ Z.land (opcode c) 15 = 5 \/
                  Z.land (opcode c) 15 = 6 \/ Z.land (opcode c) 15 = 7) by lia.
      simpl. intuition congruence. }
    destruct (Z.eq_dec (Z.land (opcode c) 15) 14) as [EE | NE].
    { left. apply switch_register_only. right. split; [ exact Hf | ].
      simpl. rewrite EE. tauto. }
    right. right. left. split.
    + right. repeat split; [ assumption | lia | assumption ].
    + apply decode_switch_unknown8; [ assumption | lia | assumption ].
  - (* Annn *) left. eexists. apply switch_ld_i, Hf.
  - (* Bnnn *) left. eexists. apply switch_jp_v0; [ exact Hwf | exact Hf ].
  - (* Cxkk *) left. apply switch_rnd_any, Hf.
  - left. eexists. apply switch_unimplemented. rewrite Hf. simpl. tauto.
  - left. eexists. apply switch_unimplemented. rewrite Hf. simpl. tauto.
  - left. eexists. apply switch_unimplemented. rewrite Hf. simpl. tauto.
Qed.

End Outcome.

Lemma decode_of_switch_panic rnd c p c' out :
  decode_switch rnd c = Panics p c' out -> decode rnd c = Panics p c' out.
Proof. intros E. unfold decode. apply bind_Panics, E. Qed.

Lemma call_not_ret op : is_call op -> ~ is_ret op.
Proof. unfold is_call, is_ret. intros H [H' _]. congruence. Qed.

Lemma unknown_not_call op : unknown_to_switch op -> ~ is_call op.
Proof. unfold is_call. intros [[H _] | [H _]] H'; congruence. Qed.

Lemma unknown_not_ret op : unknown_to_switch op -> ~ is_ret op.
Proof. unfold is_ret. intros [(H & _ & N) | (H & _)] [H1 H2]; congruence. Qed.

(** X7.  When [decode] returns.  On a machine of the right shape a call of
    [decode] returns exactly when the instruction word is not one the switch
    rejects, a CALL finds the stack pointer below 16, and a RET finds it
    between 1 and 16; in every other case it panics. *)
Theorem decode_returns_iff rnd c :
  wf c ->
  ((exists c' out, decode rnd c = Returns tt c' out) <-> decodable c).
Proof.
  intros Hwf. pose proof (decode_switch_outcome rnd c Hwf) as O. split.
  - intros (c' & out & E).
    destruct O as [(c1 & E1) | [(Hu & E1) | [(Hu & E1) | [(Hc & Hsp & E1) |
                  (Hr & Hsp & E1)]]]];
      try (apply decode_of_switch_panic in E1; congruence).
    unfold decodable. split; [ | split ].
    + intros Hu. destruct Hu as [(Hf & N0 & NE) | (Hf & H7 & NE)].
      * rewrite (decode_switch_unknown0 rnd c Hf N0 NE) in E1. discriminate.
      * rewrite (decode_switch_unknown8 rnd c Hf H7 NE) in E1. discriminate.
    + intros Hc. destruct (Z_lt_dec (sp c) 16) as [ | Hge ]; [ assumption | ].
      rewrite (switch_call_out rnd c Hwf Hc) in E1 by lia. discriminate.
    + intros Hr. destruct (Z_le_dec 1 (sp c)) as [H1 | H1];
        [ destruct (Z_le_dec (sp c) 16) as [H2 | H2]; [ lia | ] | ];
        rewrite (switch_ret_out rnd c Hwf Hr) in E1 by lia; discriminate.
  - intros (Hu & Hc & Hr).
    destruct O as [(c1 & E1) | [(Hu' & _) | [(Hu' & _) | [(Hc' & Hsp & _) |
                  (Hr' & Hsp & _)]]]].
    + eexists _, _. apply decode_eq, E1.
    + contradiction.
    + contradiction.
    + specialize (Hc Hc'). lia.
    + specialize (Hr Hr'). contradiction.
Qed.


(** ** A whole cycle *)

Lemma timers_after_with_pc v c :
  timers_after (with_pc v c) = with_pc v (timers_after c).
Proof.
  unfold timers_after. cbn [delayedTimer soundTimer with_pc].
  destruct (delayedTimer c >? 0);
    destruct ((soundTimer c >? 0) && (soundTimer c =? 1)); reflexivity.
Qed.

Lemma memory_lookup c i :
  wf c -> 0 <= i < 4096 ->
  exists v, memory c !! Z.to_nat i = Some v /\ 0 <= v < 256.
Proof.
  intros Hwf Hi. destruct (wf_lengths c Hwf) as (_ & Hm & _).
  destruct (lookup_lt_is_Some_2 (memory c) (Z.to_nat i) ltac:(lia)) as [v Hv].
  exists v. split; [ exact Hv | ].
  apply wf_shaped in Hwf. destruct Hwf as [_ _ _ _ _ Hmem _ _ _ _ _].
  apply is_byte_iff. exact (is_array_lookup _ _ _ _ Hmem Hv).
Qed.

Lemma wf_pc c : wf c -> 0 <= pc c < 65536.
Proof.
  intros H. apply wf_shaped in H. destruct H as [_ _ H _ _ _ _ _ _ _ _].
  apply is_uint16_iff, H.
Qed.

Lemma fetched_bounds c : wf c -> pc c < 4095 -> 0 <= fetched c < 256.
Proof.
  intros Hwf Hpc. pose proof (wf_pc c Hwf).
  destruct (memory_lookup c (pc c + 1) Hwf ltac:(lia)) as (v & Hv & Hb).
  unfold fetched. rewrite Hv. exact Hb.
Qed.

Lemma fetch_in_range c :
  wf c -> pc c < 4095 -> fetch c = Returns tt (with_opcode (fetched c) c) [].
Proof.
  intros Hwf Hpc. pose proof (wf_pc c Hwf).
  destruct (memory_lookup c (pc c) Hwf ltac:(lia)) as (hi & Hhi & _).
  destruct (memory_lookup c (pc c + 1) Hwf ltac:(lia)) as (lo & Hlo & _).
  unfold fetched. rewrite Hlo.
  apply (fetch_low_byte c hi lo); try assumption; lia.
Qed.

Lemma fetch_returns_in_range c c' out :
  wf c -> fetch c = Returns tt c' out -> pc c < 4095.
Proof.
  intros Hwf. pose proof (wf_pc c Hwf) as Hr.
  destruct (wf_lengths c Hwf) as (_ & Hm & _).
  unfold fetch. rewrite bind_get. unfold rdMemory.
  rewrite !bind_assoc, bind_get. unfold index.
  destruct (memory c !! Z.to_nat (pc c)) as [hi | ] eqn:Ehi;
    [ | unfold bind, throw; discriminate ].
  rewrite bind_ret, bind_assoc, bind_get.
  destruct (memory c !! Z.to_nat (uint16 (pc c + 1))) as [lo | ] eqn:Elo;
    [ | unfold bind, throw; discriminate ].
  intros _. apply lookup_lt_Some in Ehi, Elo. rewrite Hm in Ehi, Elo.
  unfold uint16 in Elo. rewrite Z.mod_small in Elo by lia. lia.
Qed.

Lemma wf_with_opcode c v : wf c -> 0 <= v < 65536 -> wf (with_opcode v c).
Proof.
  intros H Hv. apply wf_shaped in H. apply wf_shaped. destruct H.
  constructor; try assumption. apply is_uint16_iff, Hv.
Qed.

Section Cycle.

Variable rnd : Z.
Variable c : Chip8.
Hypothesis Hwf : wf c.
Hypothesis Hpc : pc c < 4095.

Lemma cycle_eq :
  EmulateCycle rnd c = (decode rnd ;; execute) (with_opcode (fetched c) c).
Proof.
  unfold EmulateCycle.
  rewrite (bind_Returns_nil _ _ _ _ _ (fetch_in_range c Hwf Hpc)). reflexivity.
Qed.

Lemma fetched_family : Z.land (fetched c) 0xF000 = 0x0000.
Proof. apply family_of_byte, fetched_bounds; assumption. Qed.

Lemma cycle_of_switch c1 :
  decode_switch rnd (with_opcode (fetched c) c) = Returns tt c1 [] ->
  EmulateCycle rnd c =
    Returns tt (with_pc (uint16 (pc c1 + 2)) (timers_after c1)) (beeps c1).
Proof.
  intros E. rewrite cycle_eq.
  pose proof (exec_op_eq rnd (fetched c) c c1 E) as X.
  unfold exec_op in X. rewrite bind_modify in X. exact X.
Qed.

Lemma cycle_cls_returns :
  Z.land (fetched c) 0x000F = 0x0 ->
  exists c1,
    decode_switch rnd (with_opcode (fetched c) c) = Returns tt c1 [] /\
    c1 = with_pc (uint16 (pc c + 2))
           (with_gfx (replicate 2048 0) (with_opcode (fetched c) c)).
Proof.
  intros Hn. destruct (wf_lengths c Hwf) as (_ & _ & Hg & _).
  eexists. split; [ | reflexivity ].
  apply (switch_cls rnd (with_opcode (fetched c) c) Hg fetched_family Hn).
Qed.

Lemma cycle_ret_returns :
  Z.land (fetched c) 0x000F = 0xE -> 1 <= sp c <= 16 ->
  exists c1,
    decode_switch rnd (with_opcode (fetched c) c) = Returns tt c1 [] /\
    c1 = with_pc (default 0 (stack c !! Z.to_nat (sp c - 1)) + 2)
           (with_sp (sp c - 1) (with_opcode (fetched c) c)).
Proof.
  intros Hn Hsp.
  assert (Hwf1 : wf (with_opcode (fetched c) c)).
  { apply wf_with_opcode; [ exact Hwf | ].
    pose proof (fetched_bounds c Hwf Hpc). lia. }
  assert (Hr : is_ret (opcode (with_opcode (fetched c) c)))
    by (split; [ apply fetched_family | exact Hn ]).
  eexists. split; [ | reflexivity ].
  apply (switch_ret_in rnd (with_opcode (fetched c) c) Hwf1 Hr Hsp).
Qed.

Lemma cycle_panics_otherwise :
  ~ (Z.land (fetched c) 0x000F = 0x0 \/
     (Z.land (fetched c) 0x000F = 0xE /\ 1 <= sp c <= 16)) ->
  exists p c' out, EmulateCycle rnd c = Panics p c' out.
Proof.
  intros Hn. rewrite cycle_eq.
  assert (Hwf1 : wf (with_opcode (fetched c) c)).
  { apply wf_with_opcode; [ exact Hwf | ].
    pose proof (fetched_bounds c Hwf Hpc). lia. }
  destruct (Z.eq_dec (Z.land (fetched c) 15) 14) as [EE | NE].
  - assert (Hr : is_ret (opcode (with_opcode (fetched c) c)))
      by (split; [ apply fetched_family | exact EE ]).
    eexists _, _, _. apply bind_Panics, decode_of_switch_panic.
    apply (switch_ret_out rnd _ Hwf1 Hr). cbn [sp with_opcode]. tauto.
  - eexists _, _, _. apply bind_Panics, decode_of_switch_panic.
    apply decode_switch_unknown0;
      [ apply fetched_family | cbn [opcode with_opcode]; tauto | exact NE ].
Qed.

End Cycle.

Lemma delayedTimer_after c :
  delayedTimer (timers_after c) =
    if delayedTimer c >? 0 then byte (delayedTimer c - 1) else delayedTimer c.
Proof.
  unfold timers_after.
  destruct (delayedTimer c >? 0);
    destruct ((soundTimer c >? 0) && (soundTimer c =? 1)); reflexivity.
Qed.

Lemma wf_initial_with_opcode op : 0 <= op < 65536 -> wf (with_opcode op initial).
Proof. intros H. apply wf_with_opcode; [ apply initial_wf | exact H ]. Qed.

(** X1.  [initialize] is a hard reset: from any machine, whatever it holds,
    it returns and leaves program counter 0x200, index register, stack
    pointer, instruction word and both timers 0, registers, keypad, stack and
    display all zero, the 80 fontset bytes at the bottom of memory and zero
    above them, and the redraw flag set. *)
Theorem initialize_resets c :
  wf c -> initialize c = Returns tt reset_state [] /\ wf reset_state.
Proof.
  intros H. destruct (wf_lengths c H) as (HV & Hm & Hg & Hs & Hk).
  split; [ apply initialize_eq; assumption | vm_compute; reflexivity ].
Qed.

(** X1 on a machine that has run: V0 = 0xFF, V1 = 1, a word latched. *)
Lemma initialize_resets_witness :
  wf carry_state /\
  initialize carry_state = Returns tt reset_state [] /\ wf reset_state.
Proof.
  assert (H : wf carry_state) by (vm_compute; reflexivity).
  split; [ exact H | apply (initialize_resets carry_state H) ].
Defined.

(** X2.  [fetch] past the end of memory.  With the program counter at 4095
    the read of the second byte fails at index 4096, with the program
    counter beyond 4095 the read of the first byte fails; either way the
    call panics on the bounds check with the machine untouched. *)
Theorem fetch_out_of_range c :
  wf c -> 4095 <= pc c ->
  fetch c =
    Panics (IndexOutOfRange (if pc c =? 4095 then 4096 else pc c) 4096) c [].
Proof.
  intros Hwf Hpc. pose proof (wf_pc c Hwf) as Hr.
  destruct (wf_lengths c Hwf) as (_ & Hm & _).
  unfold fetch. rewrite bind_get.
  destruct (Z.eqb_spec (pc c) 4095) as [E | N].
  - destruct (memory_lookup c (pc c) Hwf ltac:(lia)) as (hi & Hhi & _).
    rewrite (bind_Returns_nil _ _ _ _ _ (rdMemory_Some c _ _ Hhi)).
    apply bind_Panics. unfold rdMemory. rewrite bind_get.
    rewrite E. change (uint16 (4095 + 1)) with 4096. rewrite <- Hm.
    apply index_out. rewrite Hm. simpl. lia.
  - apply bind_Panics. unfold rdMemory. rewrite bind_get. rewrite <- Hm.
    apply index_out. lia.
Qed.

(** X2 with the program counter on the last byte of memory. *)
Lemma fetch_out_of_range_witness :
  wf (with_pc 4095 initial) /\ 4095 <= pc (with_pc 4095 initial) /\
  fetch (with_pc 4095 initial) =
    Panics (IndexOutOfRange
              (if pc (with_pc 4095 initial) =? 4095 then 4096
               else pc (with_pc 4095 initial)) 4096)
           (with_pc 4095 initial) [].
Proof.
  assert (H : wf (with_pc 4095 initial)) by (vm_compute; reflexivity).
  assert (H' : 4095 <= pc (with_pc 4095 initial)) by (simpl; lia).
  split; [ exact H | ]. split; [ exact H' | ].
  apply (fetch_out_of_range (with_pc 4095 initial) H H').
Defined.

Lemma cycle_returns_only_if rnd c c' out :
  wf c -> EmulateCycle rnd c = Returns tt c' out ->
  pc c < 4095 /\
  (Z.land (fetched c) 0x000F = 0x0 \/
   (Z.land (fetched c) 0x000F = 0xE /\ 1 <= sp c <= 16)).
Proof.
  intros Hwf E.
  destruct (Z_lt_dec (pc c) 4095) as [Hpc | Hpc].
  - split; [ exact Hpc | ].
    destruct (Z.eq_dec (Z.land (fetched c) 15) 0) as [E0 | N0];
      [ left; exact E0 | ].
    destruct (Z.eq_dec (Z.land (fetched c) 15) 14) as [EE | NE].
    + destruct (Z_le_dec 1 (sp c)) as [H1 | H1];
        [ destruct (Z_le_dec (sp c) 16) as [H2 | H2];
          [ right; split; [ exact EE | lia ] | ] | ];
        destruct (cycle_panics_otherwise rnd c Hwf Hpc) as (p & c1 & o & P);
        try (intros [ ? | [_ ?] ]; [ contradiction | lia ]);
        rewrite P in E; discriminate.
    + destruct (cycle_panics_otherwise rnd c Hwf Hpc) as (p & c1 & o & P);
        [ intros [ ? | [? _] ]; contradiction | ].
      rewrite P in E. discriminate.
  - exfalso. unfold EmulateCycle, bind in E.
    destruct (fetch c) as [[] c1 o1 | p c1 o1] eqn:Ef; [ | discriminate ].
    pose proof (fetch_returns_in_range c c1 o1 Hwf Ef). lia.
Qed.

(** X3.  When a cycle returns.  On a machine of the right shape
    [EmulateCycle] returns exactly when the program counter is below 4095
    and the byte at pc+1 has low nibble 0 (the cycle then clears the
    screen), or low nibble E with the stack pointer between 1 and 16 (the
    cycle then returns from a subroutine).  The byte at pc plays no part. *)
Theorem cycle_returns_iff rnd c :
  wf c ->
  ((exists c' out, EmulateCycle rnd c = Returns tt c' out) <->
   (pc c < 4095 /\
    (Z.land (fetched c) 0x000F = 0x0 \/
     (Z.land (fetched c) 0x000F = 0xE /\ 1 <= sp c <= 16)))).
Proof.
  intros Hwf. split.
  - intros (c' & out & E). exact (cycle_returns_only_if rnd c c' out Hwf E).
  - intros (Hpc & [E0 | (EE & Hsp)]).
    + destruct (cycle_cls_returns rnd c Hwf Hpc E0) as (c1 & E1 & _).
      eexists _, _. apply (cycle_of_switch rnd c Hwf Hpc c1 E1).
    + destruct (cycle_ret_returns rnd c Hwf Hpc EE Hsp) as (c1 & E1 & _).
      eexists _, _. apply (cycle_of_switch rnd c Hwf Hpc c1 E1).
Qed.

(** X3 on the initialized machine, whose first word is 0x0000. *)
Lemma cycle_returns_iff_witness :
  wf initial /\
  ((exists c' out, EmulateCycle 0 initial = Returns tt c' out) <->
   (pc initial < 4095 /\
    (Z.land (fetched initial) 0x000F = 0x0 \/
     (Z.land (fetched initial) 0x000F = 0xE /\ 1 <= sp initial <= 16)))).
Proof.
  split; [ exact initial_wf | apply (cycle_returns_iff 0 initial initial_wf) ].
Defined.

(** X4.  What a cycle cannot touch.  Whatever the program, a cycle that
    returns leaves the V registers, memory, the index register, the keypad,
    the stack contents and the redraw flag as they were: the word it
    decodes is a single byte, so only CLS and RET are ever executed. *)
Theorem cycle_leaves_registers_and_memory rnd c c' out :
  wf c -> EmulateCycle rnd c = Returns tt c' out ->
  V c' = V c /\ memory c' = memory c /\ ir c' = ir c /\ key c' = key c /\
  stack c' = stack c /\ drawFlag c' = drawFlag c /\ 0 <= opcode c' < 256.
Proof.
  intros Hwf E.
  destruct (cycle_returns_only_if rnd c c' out Hwf E) as (Hpc & Hcase).
  pose proof (fetched_bounds c Hwf Hpc) as Hb.
  assert (Hfields : forall c1,
            decode_switch rnd (with_opcode (fetched c) c) = Returns tt c1 [] ->
            V c1 = V c -> memory c1 = memory c -> ir c1 = ir c ->
            key c1 = key c -> stack c1 = stack c -> drawFlag c1 = drawFlag c ->
            opcode c1 = fetched c ->
            V c' = V c /\ memory c' = memory c /\ ir c' = ir c /\
            key c' = key c /\ stack c' = stack c /\
            drawFlag c' = drawFlag c /\ 0 <= opcode c' < 256).
  { intros c1 E1 HV Hm Hi Hk Hs Hd Ho.
    rewrite (cycle_of_switch rnd c Hwf Hpc c1 E1) in E. inversion E; subst c'.
    destruct (timers_after_fields c1)
      as (HV' & Hi' & _ & _ & Ho' & Hm' & _ & Hs' & Hk' & Hd').
    cbn [V memory ir key stack drawFlag opcode with_pc].
    rewrite HV', Hm', Hi', Hk', Hs', Hd', Ho', HV, Hm, Hi, Hk, Hs, Hd, Ho.
    repeat split; lia. }
  destruct Hcase as [E0 | (EE & Hsp)].
  - destruct (cycle_cls_returns rnd c Hwf Hpc E0) as (c1 & E1 & ->).
    apply (Hfields _ E1); reflexivity.
  - destruct (cycle_ret_returns rnd c Hwf Hpc EE Hsp) as (c1 & E1 & ->).
    apply (Hfields _ E1); reflexivity.
Qed.

(** X4 on the first cycle of the loaded machine of the right shape: the
    initialized machine, whose first word clears the screen. *)
Lemma cycle_leaves_registers_and_memory_witness :
  wf initial /\
  EmulateCycle 0 initial =
    Returns tt (with_pc 0x204 (with_gfx (replicate 2048 0) initial)) [] /\
  V (with_pc 0x204 (with_gfx (replicate 2048 0) initial)) = V initial /\
  memory (with_pc 0x204 (with_gfx (replicate 2048 0) initial)) = memory initial /\
  ir (with_pc 0x204 (with_gfx (replicate 2048 0) initial)) = ir initial /\
  key (with_pc 0x204 (with_gfx (replicate 2048 0) initial)) = key initial /\
  stack (with_pc 0x204 (with_gfx (replicate 2048 0) initial)) = stack initial /\
  drawFlag (with_pc 0x204 (with_gfx (replicate 2048 0) initial)) = drawFlag initial /\
  0 <= opcode (with_pc 0x204 (with_gfx (replicate 2048 0) initial)) < 256.
Proof.
  assert (E : EmulateCycle 0 initial =
              Returns tt (with_pc 0x204 (with_gfx (replicate 2048 0) initial)) [])
    by (vm_compute; reflexivity).
  split; [ exact initial_wf | ]. split; [ exact E | ].
  apply (cycle_leaves_registers_and_memory 0 initial _ [] initial_wf E).
Defined.

(** X5.  A cycle on a byte with low nibble 0 clears the screen.  With the
    program counter below 4095 and such a byte at pc+1, the cycle returns:
    every pixel is 0, the program counter has moved by 4, the timers have
    ticked, the byte is in [c.opcode], and the redraw flag is as it was
    (its assignment is commented out). *)
Theorem cycle_clears_screen rnd c :
  wf c -> pc c < 4095 -> Z.land (fetched c) 0x000F = 0x0 ->
  EmulateCycle rnd c =
    Returns tt
      (with_pc (uint16 (pc c + 4))
         (timers_after (with_gfx (replicate 2048 0) (with_opcode (fetched c) c))))
      (beeps c).
Proof.
  intros Hwf Hpc Hn. destruct (wf_lengths c Hwf) as (_ & _ & Hg & _).
  rewrite (cycle_of_switch rnd c Hwf Hpc _
             (switch_cls rnd (with_opcode (fetched c) c) Hg (fetched_family c Hwf Hpc) Hn)).
  rewrite timers_after_with_pc. cbn [pc with_pc].
  rewrite uint16_twice. reflexivity.
Qed.

(** X5 on a machine with lit pixels whose next word is 0x00E0. *)
Lemma cycle_clears_screen_witness :
  wf lit_screen /\ pc lit_screen < 4095 /\
  Z.land (fetched lit_screen) 0x000F = 0x0 /\
  EmulateCycle 0 lit_screen =
    Returns tt
      (with_pc (uint16 (pc lit_screen + 4))
         (timers_after
            (with_gfx (replicate 2048 0)
               (with_opcode (fetched lit_screen) lit_screen))))
      (beeps lit_screen).
Proof.
  assert (Hwf : wf lit_screen) by (vm_compute; reflexivity).
  assert (Hpc : pc lit_screen < 4095) by (vm_compute; reflexivity).
  assert (Hn : Z.land (fetched lit_screen) 0x000F = 0x0)
    by (vm_compute; reflexivity).
  split; [ exact Hwf | ]. split; [ exact Hpc | ]. split; [ exact Hn | ].
  apply (cycle_clears_screen 0 lit_screen Hwf Hpc Hn).
Defined.

(** X6.  A cycle on a byte with low nibble E returns from a subroutine.
    With the program counter below 4095, such a byte at pc+1 and the stack
    pointer between 1 and 16, the cycle returns: the stack pointer is one
    less, and the program counter is the byte in the slot it now points at
    plus 4 ([decode] adds 2 and [execute] 2 more). *)
Theorem cycle_returns_from_subroutine rnd c :
  wf c -> pc c < 4095 -> Z.land (fetched c) 0x000F = 0xE -> 1 <= sp c <= 16 ->
  EmulateCycle rnd c =
    Returns tt
      (with_pc (default 0 (stack c !! Z.to_nat (sp c - 1)) + 4)
         (timers_after (with_sp (sp c - 1) (with_opcode (fetched c) c))))
      (beeps c).
Proof.
  intros Hwf Hpc Hn Hsp.
  assert (Hwf1 : wf (with_opcode (fetched c) c)).
  { apply wf_with_opcode; [ exact Hwf | ].
    pose proof (fetched_bounds c Hwf Hpc). lia. }
  assert (Hr : is_ret (opcode (with_opcode (fetched c) c)))
    by (split; [ apply (fetched_family c Hwf Hpc) | exact Hn ]).
  rewrite (cycle_of_switch rnd c Hwf Hpc _
             (switch_ret_in rnd (with_opcode (fetched c) c) Hwf1 Hr Hsp)).
  rewrite timers_after_with_pc. cbn [pc with_pc stack sp with_opcode].
  assert (E : uint16 (default 0 (stack c !! Z.to_nat (sp c - 1)) + 2 + 2)
              = default 0 (stack c !! Z.to_nat (sp c - 1)) + 4).
  { destruct (stack c !! Z.to_nat (sp c - 1)) as [s | ] eqn:Es; simpl default.
    - apply wf_shaped in Hwf. destruct Hwf as [_ _ _ _ _ _ _ _ _ Hsk _].
      pose proof (proj1 (is_byte_iff s) (is_array_lookup 16 _ _ _ Hsk Es)).
      unfold uint16. rewrite Z.mod_small by lia. lia.
    - reflexivity. }
  rewrite E. reflexivity.
Qed.

(** X6 on the machine [returning]: the cycle ends at 0x2A + 4. *)
Lemma cycle_returns_from_subroutine_witness :
  wf returning /\ pc returning < 4095 /\
  Z.land (fetched returning) 0x000F = 0xE /\ 1 <= sp returning <= 16 /\
  EmulateCycle 0 returning =
    Returns tt
      (with_pc (default 0 (stack returning !! Z.to_nat (sp returning - 1)) + 4)
         (timers_after
            (with_sp (sp returning - 1)
               (with_opcode (fetched returning) returning))))
      (beeps returning).
Proof.
  assert (Hwf : wf returning) by (vm_compute; reflexivity).
  assert (Hpc : pc returning < 4095) by (vm_compute; reflexivity).
  assert (Hn : Z.land (fetched returning) 0x000F = 0xE)
    by (vm_compute; reflexivity).
  assert (Hsp : 1 <= sp returning <= 16) by (simpl; lia).
  split; [ exact Hwf | ]. split; [ exact Hpc | ]. split; [ exact Hn | ].
  split; [ exact Hsp | ].
  apply (cycle_returns_from_subroutine 0 returning Hwf Hpc Hn Hsp).
Defined.

(** X7 on [CALL 0x300] latched in the initialized machine. *)
Lemma decode_returns_iff_witness :
  wf (with_opcode 0x2300 initial) /\
  ((exists c' out, decode 0 (with_opcode 0x2300 initial) = Returns tt c' out) <->
   decodable (with_opcode 0x2300 initial)).
Proof.
  assert (H : wf (with_opcode 0x2300 initial)) by (vm_compute; reflexivity).
  split; [ exact H | apply (decode_returns_iff 0 _ H) ].
Defined.


(** X9.  The shape of the machine is an invariant of a cycle: started with
    arrays of the declared lengths holding bytes and with the integer fields
    in the range of their types, [EmulateCycle] ends in such a state,
    whether it returns or panics. *)
Theorem cycle_keeps_shape rnd c :
  wf c ->
  match EmulateCycle rnd c with
  | Returns _ c' _ => wf c'
  | Panics _ c' _ => wf c'
  end.
Proof.
  intros H. apply wf_shaped in H.
  pose proof (stays_EmulateCycle rnd c H) as E.
  destruct (EmulateCycle rnd c); [ destruct E as [E _] | ]; apply wf_shaped, E.
Qed.

(** X9 on the machine [returning]. *)
Lemma cycle_keeps_shape_witness :
  wf returning /\
  match EmulateCycle 0 returning with
  | Returns _ c' _ => wf c'
  | Panics _ c' _ => wf c'
  end.
Proof.
  assert (Hwf : wf returning) by (vm_compute; reflexivity).
  split; [ exact Hwf | apply (cycle_keeps_shape 0 returning Hwf) ].
Defined.

(** * Instructions, one call of [decode] at a time *)

(** X10.  The skips on a constant.  [3xkk] skips the next instruction when
    Vx = kk and [4xkk] when Vx <> kk: the program counter moves by 4 on a
    skip and by 2 otherwise, and nothing else changes but the timers. *)
Theorem skip_on_byte rnd c :
  wf c ->
  Z.land (opcode c) 0xF000 = 0x3000 \/ Z.land (opcode c) 0xF000 = 0x4000 ->
  decode rnd c =
    Returns tt
      (timers_after
         (with_pc
            (uint16
               (pc c +
                if Bool.eqb (reg c (xreg (opcode c)) =? kk (opcode c))
                            (Z.land (opcode c) 0xF000 =? 0x3000)
                then 4 else 2)) c))
      (beeps c).
Proof.
  intros Hwf Hf. destruct (wf_lengths c Hwf) as (HV & _).
  destruct Hf as [Hf | Hf]; rewrite Hf.
  - rewrite (decode_eq _ _ _ (switch_se_byte rnd c HV Hf)).
    destruct (_ =? _); reflexivity.
  - rewrite (decode_eq _ _ _ (switch_sne_byte rnd c HV Hf)).
    destruct (_ =? _); reflexivity.
Qed.

(** X10 on [SNE V0, 0x12] with V0 = 0. *)
Lemma skip_on_byte_witness :
  wf (latched 0x4012) /\
  (Z.land (opcode (latched 0x4012)) 0xF000 = 0x3000 \/
   Z.land (opcode (latched 0x4012)) 0xF000 = 0x4000) /\
  decode 0 (latched 0x4012) =
    Returns tt
      (timers_after
         (with_pc
            (uint16
               (pc (latched 0x4012) +
                if Bool.eqb
                     (reg (latched 0x4012)
                         (xreg (opcode (latched 0x4012)))
                      =? kk (opcode (latched 0x4012)))
                     (Z.land (opcode (latched 0x4012)) 0xF000
                      =? 0x3000)
                then 4 else 2)) (latched 0x4012)))
      (beeps (latched 0x4012)).
Proof.
  assert (H : wf (latched 0x4012)) by (vm_compute; reflexivity).
  assert (Hf : Z.land (opcode (latched 0x4012)) 0xF000 = 0x3000 \/
               Z.land (opcode (latched 0x4012)) 0xF000 = 0x4000)
    by (right; reflexivity).
  split; [ exact H | ]. split; [ exact Hf | ].
  apply (skip_on_byte 0 (latched 0x4012) H Hf).
Defined.

(** X11.  The skips on a register.  [5xy?] skips when Vx = Vy and [9xy?]
    when Vx <> Vy, whatever the low nibble of the word is (the switch does
    not look at it); nothing else changes but the timers.  In particular
    [5xx?] always skips and [9xx?] never does. *)
Theorem skip_on_register rnd c :
  wf c ->
  Z.land (opcode c) 0xF000 = 0x5000 \/ Z.land (opcode c) 0xF000 = 0x9000 ->
  decode rnd c =
    Returns tt
      (timers_after
         (with_pc
            (uint16
               (pc c +
                if Bool.eqb
                     (reg c (xreg (opcode c)) =? reg c (yreg (opcode c)))
                     (Z.land (opcode c) 0xF000 =? 0x5000)
                then 4 else 2)) c))
      (beeps c).
Proof.
  intros Hwf Hf. destruct (wf_lengths c Hwf) as (HV & _).
  destruct Hf as [Hf | Hf]; rewrite Hf.
  - rewrite (decode_eq _ _ _ (switch_se_reg rnd c HV Hf)).
    destruct (_ =? _); reflexivity.
  - rewrite (decode_eq _ _ _ (switch_sne_reg rnd c HV Hf)).
    destruct (_ =? _); reflexivity.
Qed.

(** X11 on the word 0x5127, whose low nibble is not 0. *)
Lemma skip_on_register_witness :
  wf (latched 0x5127) /\
  (Z.land (opcode (latched 0x5127)) 0xF000 = 0x5000 \/
   Z.land (opcode (latched 0x5127)) 0xF000 = 0x9000) /\
  decode 0 (latched 0x5127) =
    Returns tt
      (timers_after
         (with_pc
            (uint16
               (pc (latched 0x5127) +
                if Bool.eqb
                     (reg (latched 0x5127)
                         (xreg (opcode (latched 0x5127)))
                      =? reg (latched 0x5127)
                           (yreg (opcode (latched 0x5127))))
                     (Z.land (opcode (latched 0x5127)) 0xF000
                      =? 0x5000)
                then 4 else 2)) (latched 0x5127)))
      (beeps (latched 0x5127)).
Proof.
  assert (H : wf (latched 0x5127)) by (vm_compute; reflexivity).
  assert (Hf : Z.land (opcode (latched 0x5127)) 0xF000 = 0x5000 \/
               Z.land (opcode (latched 0x5127)) 0xF000 = 0x9000)
    by (left; reflexivity).
  split; [ exact H | ]. split; [ exact Hf | ].
  apply (skip_on_register 0 (latched 0x5127) H Hf).
Defined.

(** X12.  [8xy0] .. [8xy3] put Vy, Vx OR Vy, Vx AND Vy and Vx XOR Vy in Vx;
    the program counter moves by 2 and no other register, VF included, is
    written. *)
Theorem bitwise_instructions rnd c :
  wf c ->
  Z.land (opcode c) 0xF000 = 0x8000 -> Z.land (opcode c) 0x000F <= 3 ->
  decode rnd c =
    Returns tt
      (timers_after
         (with_pc (uint16 (pc c + 2))
            (with_V (<[xreg (opcode c) :=
                        bitwise (Z.land (opcode c) 0x000F)
                                (reg c (xreg (opcode c)))
                                (reg c (yreg (opcode c)))]> (V c)) c)))
      (beeps c).
Proof.
  intros Hwf Hf Hn. destruct (wf_lengths c Hwf) as (HV & _).
  pose proof (low_nibble_bounds (opcode c)) as Hb.
  assert (H : Z.land (opcode c) 15 = 0 \/ Z.land (opcode c) 15 = 1 \/
              Z.land (opcode c) 15 = 2 \/ Z.land (opcode c) 15 = 3) by lia.
  destruct H as [E | [E | [E | E]]]; rewrite E; unfold bitwise; cbn [Z.eqb];
    [ rewrite (decode_eq _ _ _
                 (switch_bitwise rnd c HV (fun _ b => b) 0 Hf E ltac:(tauto)))
    | rewrite (decode_eq _ _ _
                 (switch_bitwise rnd c HV Z.lor 1 Hf E ltac:(tauto)))
    | rewrite (decode_eq _ _ _
                 (switch_bitwise rnd c HV Z.land 2 Hf E ltac:(tauto)))
    | rewrite (decode_eq _ _ _
                 (switch_bitwise rnd c HV Z.lxor 3 Hf E ltac:(tauto))) ];
    reflexivity.
Qed.

(** X12 on [XOR V0, V1] with V0 = 0x0F and V1 = 0x3C. *)
Lemma bitwise_instructions_witness :
  wf (latched_with 0x0F 0x3C 0x8013) /\
  Z.land (opcode (latched_with 0x0F 0x3C 0x8013)) 0xF000 = 0x8000 /\
  Z.land (opcode (latched_with 0x0F 0x3C 0x8013)) 0x000F <= 3 /\
  decode 0 (latched_with 0x0F 0x3C 0x8013) =
    Returns tt
      (timers_after
         (with_pc (uint16 (pc (latched_with 0x0F 0x3C 0x8013) + 2))
            (with_V (<[xreg (opcode (latched_with 0x0F 0x3C 0x8013)) :=
                        bitwise
                          (Z.land (opcode (latched_with 0x0F 0x3C 0x8013)) 0x000F)
                          (reg (latched_with 0x0F 0x3C 0x8013)
                             (xreg (opcode (latched_with 0x0F 0x3C 0x8013))))
                          (reg (latched_with 0x0F 0x3C 0x8013)
                             (yreg (opcode (latched_with 0x0F 0x3C 0x8013))))]>
                       (V (latched_with 0x0F 0x3C 0x8013)))
                    (latched_with 0x0F 0x3C 0x8013))))
      (beeps (latched_with 0x0F 0x3C 0x8013)).
Proof.
  assert (H : wf (latched_with 0x0F 0x3C 0x8013)) by (vm_compute; reflexivity).
  assert (Hf : Z.land (opcode (latched_with 0x0F 0x3C 0x8013)) 0xF000 = 0x8000)
    by reflexivity.
  assert (Hn : Z.land (opcode (latched_with 0x0F 0x3C 0x8013)) 0x000F <= 3)
    by (vm_compute; discriminate).
  split; [ exact H | ]. split; [ exact Hf | ]. split; [ exact Hn | ].
  apply (bitwise_instructions 0 _ H Hf Hn).
Defined.

(** X13.  [7xkk] adds the constant to Vx modulo 256 and writes no flag: on
    overflow the sum wraps and VF keeps its value (unless x is F itself). *)
Theorem add_byte_wraps_without_flag rnd c :
  wf c -> Z.land (opcode c) 0xF000 = 0x7000 ->
  decode rnd c =
    Returns tt
      (timers_after
         (with_pc (uint16 (pc c + 2))
            (with_V (<[xreg (opcode c) :=
                        (reg c (xreg (opcode c)) + kk (opcode c)) mod 256]>
                       (V c)) c)))
      (beeps c).
Proof.
  intros Hwf Hf. destruct (wf_lengths c Hwf) as (HV & _).
  rewrite (decode_eq _ _ _ (switch_add_byte rnd c HV Hf)). reflexivity.
Qed.

(** X13 on [ADD V0, 0x02] with V0 = 0xFF. *)
Lemma add_byte_wraps_without_flag_witness :
  wf (latched_with 0xFF 0 0x7002) /\
  Z.land (opcode (latched_with 0xFF 0 0x7002)) 0xF000 = 0x7000 /\
  decode 0 (latched_with 0xFF 0 0x7002) =
    Returns tt
      (timers_after
         (with_pc (uint16 (pc (latched_with 0xFF 0 0x7002) + 2))
            (with_V (<[xreg (opcode (latched_with 0xFF 0 0x7002)) :=
                        (reg (latched_with 0xFF 0 0x7002)
                           (xreg (opcode (latched_with 0xFF 0 0x7002)))
                         + kk (opcode (latched_with 0xFF 0 0x7002))) mod 256]>
                       (V (latched_with 0xFF 0 0x7002)))
                    (latched_with 0xFF 0 0x7002))))
      (beeps (latched_with 0xFF 0 0x7002)).
Proof.
  assert (H : wf (latched_with 0xFF 0 0x7002)) by (vm_compute; reflexivity).
  assert (Hf : Z.land (opcode (latched_with 0xFF 0 0x7002)) 0xF000 = 0x7000)
    by reflexivity.
  split; [ exact H | ]. split; [ exact Hf | ].
  apply (add_byte_wraps_without_flag 0 _ H Hf).
Defined.

(** X14.  [8xy6] halves Vx and puts the bit shifted out in VF: with x other
    than F, Vx becomes Vx / 2 and VF becomes Vx mod 2; Vy is not used. *)
Theorem shift_right rnd c :
  wf c ->
  Z.land (opcode c) 0xF000 = 0x8000 ->
  Z.land (opcode c) 0x000F = 0x6 ->
  xreg (opcode c) <> 15%nat ->
  decode rnd c =
    Returns tt
      (timers_after
         (with_pc (uint16 (pc c + 2))
            (with_V (<[xreg (opcode c) := reg c (xreg (opcode c)) / 2]>
                       (<[15%nat := reg c (xreg (opcode c)) mod 2]> (V c))) c)))
      (beeps c).
Proof.
  intros Hwf Hf Hn Hx. destruct (wf_lengths c Hwf) as (HV & _).
  rewrite (decode_eq _ _ _ (switch_shr rnd c HV Hx Hf Hn)).
  rewrite (Z.shiftr_div_pow2 _ 1) by lia. change (2 ^ 1) with 2.
  change 1 with (Z.ones 1) at 1. rewrite Z.land_ones by lia.
  change (2 ^ 1) with 2.
  pose proof (Z.mod_pos_bound (reg c (xreg (opcode c))) 2 ltac:(lia)) as Hm.
  destruct (Z.eqb_spec (reg c (xreg (opcode c)) mod 2) 1) as [E | N].
  - rewrite E. reflexivity.
  - replace (reg c (xreg (opcode c)) mod 2) with 0 by lia. reflexivity.
Qed.

(** X14 on [SHR V0] with V0 = 0x05. *)
Lemma shift_right_witness :
  (wf (latched_with 0x05 0 0x8016)) /\
  (Z.land (opcode (latched_with 0x05 0 0x8016)) 0xF000 = 0x8000) /\
  (Z.land (opcode (latched_with 0x05 0 0x8016)) 0x000F = 0x6) /\
  (xreg (opcode (latched_with 0x05 0 0x8016)) <> 15%nat) /\
  (decode 0 (latched_with 0x05 0 0x8016) =
    Returns tt
      (timers_after
         (with_pc (uint16 (pc (latched_with 0x05 0 0x8016) + 2))
            (with_V (<[xreg (opcode (latched_with 0x05 0 0x8016)) := reg (latched_with 0x05 0 0x8016) (xreg (opcode (latched_with 0x05 0 0x8016))) / 2]>
                       (<[15%nat := reg (latched_with 0x05 0 0x8016) (xreg (opcode (latched_with 0x05 0 0x8016))) mod 2]> (V (latched_with 0x05 0 0x8016)))) (latched_with 0x05 0 0x8016))))
      (beeps (latched_with 0x05 0 0x8016))).
Proof.
  assert (Hwf : wf (latched_with 0x05 0 0x8016)) by (vm_compute; reflexivity).
  assert (Hf : Z.land (opcode (latched_with 0x05 0 0x8016)) 0xF000 = 0x8000) by (reflexivity).
  assert (Hn : Z.land (opcode (latched_with 0x05 0 0x8016)) 0x000F = 0x6) by (reflexivity).
  assert (Hx : xreg (opcode (latched_with 0x05 0 0x8016)) <> 15%nat) by (vm_compute; discriminate).
  split; [ exact Hwf | ].
  split; [ exact Hf | ].
  split; [ exact Hn | ].
  split; [ exact Hx | ].
  apply (shift_right 0 (latched_with 0x05 0 0x8016) Hwf Hf Hn Hx).
Defined.

(** X15.  [8xy7] puts Vy - Vx modulo 256 in Vx and sets VF to 1 exactly when
    Vy > Vx, so equal operands give VF = 0 (x and y other than F). *)
Theorem subtract_reversed rnd c :
  wf c ->
  Z.land (opcode c) 0xF000 = 0x8000 ->
  Z.land (opcode c) 0x000F = 0x7 ->
  xreg (opcode c) <> 15%nat ->
  yreg (opcode c) <> 15%nat ->
  decode rnd c =
    Returns tt
      (timers_after
         (with_pc (uint16 (pc c + 2))
            (with_V (<[xreg (opcode c) :=
                        (reg c (yreg (opcode c)) - reg c (xreg (opcode c))) mod 256]>
                       (<[15%nat := if reg c (yreg (opcode c)) >? reg c (xreg (opcode c))
                                    then 1 else 0]> (V c))) c)))
      (beeps c).
Proof.
  intros Hwf Hf Hn Hx Hy. destruct (wf_lengths c Hwf) as (HV & _).
  rewrite (decode_eq _ _ _ (switch_subn rnd c HV Hx Hy Hf Hn)). reflexivity.
Qed.

(** X15 on [SUBN V0, V1] with V0 = V1 = 7. *)
Lemma subtract_reversed_witness :
  (wf (latched_with 7 7 0x8017)) /\
  (Z.land (opcode (latched_with 7 7 0x8017)) 0xF000 = 0x8000) /\
  (Z.land (opcode (latched_with 7 7 0x8017)) 0x000F = 0x7) /\
  (xreg (opcode (latched_with 7 7 0x8017)) <> 15%nat) /\
  (yreg (opcode (latched_with 7 7 0x8017)) <> 15%nat) /\
  (decode 0 (latched_with 7 7 0x8017) =
    Returns tt
      (timers_after
         (with_pc (uint16 (pc (latched_with 7 7 0x8017) + 2))
            (with_V (<[xreg (opcode (latched_with 7 7 0x8017)) :=
                        (reg (latched_with 7 7 0x8017) (yreg (opcode (latched_with 7 7 0x8017))) - reg (latched_with 7 7 0x8017) (xreg (opcode (latched_with 7 7 0x8017)))) mod 256]>
                       (<[15%nat := if reg (latched_with 7 7 0x8017) (yreg (opcode (latched_with 7 7 0x8017))) >? reg (latched_with 7 7 0x8017) (xreg (opcode (latched_with 7 7 0x8017)))
                                    then 1 else 0]> (V (latched_with 7 7 0x8017)))) (latched_with 7 7 0x8017))))
      (beeps (latched_with 7 7 0x8017))).
Proof.
  assert (Hwf : wf (latched_with 7 7 0x8017)) by (vm_compute; reflexivity).
  assert (Hf : Z.land (opcode (latched_with 7 7 0x8017)) 0xF000 = 0x8000) by (reflexivity).
  assert (Hn : Z.land (opcode (latched_with 7 7 0x8017)) 0x000F = 0x7) by (reflexivity).
  assert (Hx : xreg (opcode (latched_with 7 7 0x8017)) <> 15%nat) by (vm_compute; discriminate).
  assert (Hy : yreg (opcode (latched_with 7 7 0x8017)) <> 15%nat) by (vm_compute; discriminate).
  split; [ exact Hwf | ].
  split; [ exact Hf | ].
  split; [ exact Hn | ].
  split; [ exact Hx | ].
  split; [ exact Hy | ].
  apply (subtract_reversed 0 (latched_with 7 7 0x8017) Hwf Hf Hn Hx Hy).
Defined.

(** X16.  [8xyE] doubles Vx modulo 256 but takes the flag from Vy: VF becomes
    1 exactly when Vy >= 128, whatever the top bit of Vx is (x and y other
    than F). *)
Theorem shift_left rnd c :
  wf c ->
  Z.land (opcode c) 0xF000 = 0x8000 ->
  Z.land (opcode c) 0x000F = 0xE ->
  xreg (opcode c) <> 15%nat ->
  yreg (opcode c) <> 15%nat ->
  decode rnd c =
    Returns tt
      (timers_after
         (with_pc (uint16 (pc c + 2))
            (with_V (<[xreg (opcode c) := (2 * reg c (xreg (opcode c))) mod 256]>
                       (<[15%nat := if 128 <=? reg c (yreg (opcode c))
                                    then 1 else 0]> (V c))) c)))
      (beeps c).
Proof.
  intros Hwf Hf Hn Hx Hy. destruct (wf_lengths c Hwf) as (HV & _).
  rewrite (decode_eq _ _ _ (switch_shl rnd c HV Hx Hy Hf Hn)).
  rewrite (Z.shiftl_mul_pow2 _ 1) by lia. change (2 ^ 1) with 2.
  rewrite (Z.mul_comm _ 2).
  rewrite (Z.shiftr_div_pow2 _ 7) by lia. change (2 ^ 7) with 128.
  pose proof (reg_bounds c (yreg (opcode c)) Hwf) as Hb.
  assert (E : (reg c (yreg (opcode c)) / 128 =? 1)
              = (128 <=? reg c (yreg (opcode c)))).
  { destruct (Z.leb_spec 128 (reg c (yreg (opcode c)))) as [H | H].
    - apply Z.eqb_eq. symmetry. apply (Z.div_unique _ 128 1 (reg c (yreg (opcode c)) - 128)); lia.
    - apply Z.eqb_neq. rewrite Z.div_small by lia. lia. }
  rewrite E. reflexivity.
Qed.

(** X16 on [SHL V0] with V0 = 0x80 and V1 = 0x01: the top bit of V0 is lost. *)
Lemma shift_left_witness :
  (wf (latched_with 0x80 0x01 0x801E)) /\
  (Z.land (opcode (latched_with 0x80 0x01 0x801E)) 0xF000 = 0x8000) /\
  (Z.land (opcode (latched_with 0x80 0x01 0x801E)) 0x000F = 0xE) /\
  (xreg (opcode (latched_with 0x80 0x01 0x801E)) <> 15%nat) /\
  (yreg (opcode (latched_with 0x80 0x01 0x801E)) <> 15%nat) /\
  (decode 0 (latched_with 0x80 0x01 0x801E) =
    Returns tt
      (timers_after
         (with_pc (uint16 (pc (latched_with 0x80 0x01 0x801E) + 2))
            (with_V (<[xreg (opcode (latched_with 0x80 0x01 0x801E)) := (2 * reg (latched_with 0x80 0x01 0x801E) (xreg (opcode (latched_with 0x80 0x01 0x801E)))) mod 256]>
                       (<[15%nat := if 128 <=? reg (latched_with 0x80 0x01 0x801E) (yreg (opcode (latched_with 0x80 0x01 0x801E)))
                                    then 1 else 0]> (V (latched_with 0x80 0x01 0x801E)))) (latched_with 0x80 0x01 0x801E))))
      (beeps (latched_with 0x80 0x01 0x801E))).
Proof.
  assert (Hwf : wf (latched_with 0x80 0x01 0x801E)) by (vm_compute; reflexivity).
  assert (Hf : Z.land (opcode (latched_with 0x80 0x01 0x801E)) 0xF000 = 0x8000) by (reflexivity).
  assert (Hn : Z.land (opcode (latched_with 0x80 0x01 0x801E)) 0x000F = 0xE) by (reflexivity).
  assert (Hx : xreg (opcode (latched_with 0x80 0x01 0x801E)) <> 15%nat) by (vm_compute; discriminate).
  assert (Hy : yreg (opcode (latched_with 0x80 0x01 0x801E)) <> 15%nat) by (vm_compute; discriminate).
  split; [ exact Hwf | ].
  split; [ exact Hf | ].
  split; [ exact Hn | ].
  split; [ exact Hx | ].
  split; [ exact Hy | ].
  apply (shift_left 0 (latched_with 0x80 0x01 0x801E) Hwf Hf Hn Hx Hy).
Defined.

(** X17.  [1nnn] sets the program counter to the low 12 bits of the word and
    changes nothing else but the timers; [execute], which follows in a
    cycle, then moves it on by 2. *)
Theorem jump rnd c :
  Z.land (opcode c) 0xF000 = 0x1000 ->
  decode rnd c = Returns tt (timers_after (with_pc (nnn (opcode c)) c)) (beeps c) /\
   (decode rnd ;; execute) c =
     Returns tt (timers_after (with_pc (nnn (opcode c) + 2) c)) (beeps c).
Proof.
  intros Hf. pose proof (decode_eq _ _ _ (switch_jp rnd c Hf)) as E.
  split; [ exact E | ].
  rewrite (bind_Returns _ _ _ _ _ _ E), execute_eq. cbn [prepend].
  rewrite app_nil_r.
  destruct (timers_after_fields (with_pc (nnn (opcode c)) c)) as (_ & _ & Hp & _).
  rewrite Hp. cbn [pc with_pc]. rewrite <- timers_after_with_pc.
  pose proof (nnn_bounds (opcode c)).
  unfold uint16. rewrite Z.mod_small by lia. reflexivity.
Qed.

(** X17 on [JP 0x300]. *)
Lemma jump_witness :
  (Z.land (opcode (latched 0x1300)) 0xF000 = 0x1000) /\
  (decode 0 (latched 0x1300) = Returns tt (timers_after (with_pc (nnn (opcode (latched 0x1300))) (latched 0x1300))) (beeps (latched 0x1300)) /\
   (decode 0 ;; execute) (latched 0x1300) =
     Returns tt (timers_after (with_pc (nnn (opcode (latched 0x1300)) + 2) (latched 0x1300))) (beeps (latched 0x1300))).
Proof.
  assert (Hf : Z.land (opcode (latched 0x1300)) 0xF000 = 0x1000) by (reflexivity).
  split; [ exact Hf | ].
  apply (jump 0 (latched 0x1300) Hf).
Defined.

(** X18.  [Annn] puts the low 12 bits of the word in the index register and
    moves the program counter by 2; nothing else changes but the timers. *)
Theorem load_index rnd c :
  Z.land (opcode c) 0xF000 = 0xA000 ->
  decode rnd c =
    Returns tt
      (timers_after (with_pc (uint16 (pc c + 2)) (with_ir (nnn (opcode c)) c)))
      (beeps c).
Proof.
  intros Hf. rewrite (decode_eq _ _ _ (switch_ld_i rnd c Hf)). reflexivity.
Qed.

(** X18 on [LD I, 0x2F0]. *)
Lemma load_index_witness :
  (Z.land (opcode (latched 0xA2F0)) 0xF000 = 0xA000) /\
  (decode 0 (latched 0xA2F0) =
    Returns tt
      (timers_after (with_pc (uint16 (pc (latched 0xA2F0) + 2)) (with_ir (nnn (opcode (latched 0xA2F0))) (latched 0xA2F0))))
      (beeps (latched 0xA2F0))).
Proof.
  assert (Hf : Z.land (opcode (latched 0xA2F0)) 0xF000 = 0xA000) by (reflexivity).
  split; [ exact Hf | ].
  apply (load_index 0 (latched 0xA2F0) Hf).
Defined.

(** X19.  [Bnnn] sets the program counter to nnn + V0, a sum that never
    wraps (it is at most 0x10FE) and so can lie past the end of memory. *)
Theorem jump_plus_v0 rnd c :
  wf c ->
  Z.land (opcode c) 0xF000 = 0xB000 ->
  decode rnd c =
     Returns tt (timers_after (with_pc (nnn (opcode c) + reg c 0) c)) (beeps c) /\
   0 <= nnn (opcode c) + reg c 0 <= 0x10FE.
Proof.
  intros Hwf Hf. split.
  - rewrite (decode_eq _ _ _ (switch_jp_v0 rnd c Hwf Hf)). reflexivity.
  - pose proof (nnn_bounds (opcode c)). pose proof (reg_bounds c 0 Hwf). lia.
Qed.

(** X19 on [JP V0, 0xFFF] with V0 = 0xFF. *)
Lemma jump_plus_v0_witness :
  (wf (latched_with 0xFF 0 0xBFFF)) /\
  (Z.land (opcode (latched_with 0xFF 0 0xBFFF)) 0xF000 = 0xB000) /\
  (decode 0 (latched_with 0xFF 0 0xBFFF) =
     Returns tt (timers_after (with_pc (nnn (opcode (latched_with 0xFF 0 0xBFFF)) + reg (latched_with 0xFF 0 0xBFFF) 0) (latched_with 0xFF 0 0xBFFF))) (beeps (latched_with 0xFF 0 0xBFFF)) /\
   0 <= nnn (opcode (latched_with 0xFF 0 0xBFFF)) + reg (latched_with 0xFF 0 0xBFFF) 0 <= 0x10FE).
Proof.
  assert (Hwf : wf (latched_with 0xFF 0 0xBFFF)) by (vm_compute; reflexivity).
  assert (Hf : Z.land (opcode (latched_with 0xFF 0 0xBFFF)) 0xF000 = 0xB000) by (reflexivity).
  split; [ exact Hwf | ].
  split; [ exact Hf | ].
  apply (jump_plus_v0 0 (latched_with 0xFF 0 0xBFFF) Hwf Hf).
Defined.

(** X20.  [Cxkk] puts the random number ANDed with kk in Vx.  The number comes
    from [rand.Intn(255)], which is below 255, so the value 0xFF is never
    produced, not even under the mask 0xFF. *)
Theorem random_and_mask rnd c :
  wf c ->
  0 <= rnd < 255 ->
  Z.land (opcode c) 0xF000 = 0xC000 ->
  decode rnd c =
     Returns tt
       (timers_after
          (with_pc (uint16 (pc c + 2))
             (with_V (<[xreg (opcode c) := Z.land rnd (kk (opcode c))]> (V c)) c)))
       (beeps c) /\
   Z.land rnd (kk (opcode c)) <> 0xFF.
Proof.
  intros Hwf Hr Hf. destruct (wf_lengths c Hwf) as (HV & _). split.
  - rewrite (decode_eq _ _ _ (switch_rnd rnd c HV Hr Hf)). reflexivity.
  - intros E.
    assert (E2 : Z.land (Z.land rnd (kk (opcode c))) rnd = Z.land rnd (kk (opcode c))).
    { rewrite (Z.land_comm rnd (kk (opcode c))), <- Z.land_assoc, Z.land_diag.
      reflexivity. }
    rewrite E in E2. rewrite Z.land_comm in E2.
    change 255 with (Z.ones 8) in E2 at 1. rewrite Z.land_ones in E2 by lia.
    rewrite Z.mod_small in E2 by lia. lia.
Qed.

(** X20 with the random number 254 under the mask 0xFF. *)
Lemma random_and_mask_witness :
  (wf (latched 0xC0FF)) /\
  (0 <= 254 < 255) /\
  (Z.land (opcode (latched 0xC0FF)) 0xF000 = 0xC000) /\
  (decode 254 (latched 0xC0FF) =
     Returns tt
       (timers_after
          (with_pc (uint16 (pc (latched 0xC0FF) + 2))
             (with_V (<[xreg (opcode (latched 0xC0FF)) := Z.land 254 (kk (opcode (latched 0xC0FF)))]> (V (latched 0xC0FF))) (latched 0xC0FF))))
       (beeps (latched 0xC0FF)) /\
   Z.land 254 (kk (opcode (latched 0xC0FF))) <> 0xFF).
Proof.
  assert (Hwf : wf (latched 0xC0FF)) by (vm_compute; reflexivity).
  assert (Hr : 0 <= 254 < 255) by (lia).
  assert (Hf : Z.land (opcode (latched 0xC0FF)) 0xF000 = 0xC000) by (reflexivity).
  split; [ exact Hwf | ].
  split; [ exact Hr | ].
  split; [ exact Hf | ].
  apply (random_and_mask 254 (latched 0xC0FF) Hwf Hr Hf).
Defined.

(** X21.  The words of family E and F (keypad skips, timer, index and memory
    transfers) have empty cases: [decode] returns with the machine as it
    was, the timers apart; no register is loaded, no key is read, no timer
    is set. *)
Theorem keypad_and_timer_words_do_nothing rnd c :
  Z.land (opcode c) 0xF000 = 0xE000 \/ Z.land (opcode c) 0xF000 = 0xF000 ->
  decode rnd c = Returns tt (timers_after c) (beeps c).
Proof.
  intros Hf. apply decode_eq, switch_unimplemented.
  destruct Hf as [Hf | Hf]; rewrite Hf; simpl; tauto.
Qed.

(** X21 on [LD DT, V0] (0xF015) with V0 = 0x3C: the delay timer stays 0. *)
Lemma keypad_and_timer_words_do_nothing_witness :
  (Z.land (opcode (latched_with 0x3C 0 0xF015)) 0xF000 = 0xE000 \/ Z.land (opcode (latched_with 0x3C 0 0xF015)) 0xF000 = 0xF000) /\
  (decode 0 (latched_with 0x3C 0 0xF015) = Returns tt (timers_after (latched_with 0x3C 0 0xF015)) (beeps (latched_with 0x3C 0 0xF015))).
Proof.
  assert (Hf : Z.land (opcode (latched_with 0x3C 0 0xF015)) 0xF000 = 0xE000 \/ Z.land (opcode (latched_with 0x3C 0 0xF015)) 0xF000 = 0xF000) by (right; reflexivity).
  split; [ exact Hf | ].
  apply (keypad_and_timer_words_do_nothing 0 (latched_with 0x3C 0 0xF015) Hf).
Defined.

(** X22.  Whatever the instruction, a call of [decode] that returns has
    taken one off the delay timer, or left it at 0: no instruction sets
    it. *)
Theorem delay_timer_counts_down rnd c c' out :
  wf c ->
  decode rnd c = Returns tt c' out ->
  delayedTimer c' = Z.max 0 (delayedTimer c - 1).
Proof.
  intros Hwf E. unfold decode, bind in E.
  pose proof (silent_decode_switch rnd c) as S.
  destruct (decode_switch rnd c) as [[] c1 o1 | p c1 o1]; [ | discriminate ].
  destruct S as [[Hd _] _]. rewrite decode_timers_eq in E.
  inversion E; subst. rewrite delayedTimer_after, Hd.
  apply wf_shaped in Hwf. destruct Hwf as [_ _ _ _ _ _ _ Ht _ _ _].
  apply is_byte_iff in Ht.
  destruct (Z.gtb_spec (delayedTimer c) 0).
  - unfold byte. rewrite Z.mod_small by lia. lia.
  - lia.
Qed.

(** X22 on a skip with the delay timer at 3. *)
Lemma delay_timer_counts_down_witness :
  (wf (with_delayedTimer 3 (latched 0x3000))) /\
  (decode 0 (with_delayedTimer 3 (latched 0x3000)) = Returns tt (with_delayedTimer 2 (with_pc 0x204 (latched 0x3000))) []) /\
  (delayedTimer (with_delayedTimer 2 (with_pc 0x204 (latched 0x3000))) = Z.max 0 (delayedTimer (with_delayedTimer 3 (latched 0x3000)) - 1)).
Proof.
  assert (Hwf : wf (with_delayedTimer 3 (latched 0x3000))) by (vm_compute; reflexivity).
  assert (E : decode 0 (with_delayedTimer 3 (latched 0x3000)) = Returns tt (with_delayedTimer 2 (with_pc 0x204 (latched 0x3000))) []) by (vm_compute; reflexivity).
  split; [ exact Hwf | ].
  split; [ exact E | ].
  apply (delay_timer_counts_down 0 (with_delayedTimer 3 (latched 0x3000)) (with_delayedTimer 2 (with_pc 0x204 (latched 0x3000))) [] Hwf E).
Defined.
